(** * Company knowledge-base chatbot: retrieval pipeline

    A shallow embedding of [src/document_processor.py], [src/vector_store.py]
    and [src/chatbot.py], and the properties of the retrieval pipeline that
    the specification states about them; then of the indexing script
    [scripts/index_documents.py] and of the prompt handling of [src/app.py],
    with further properties read off the code.

    Python values are modelled as follows: [str] as [string], [int] as [Z],
    a [dict] with string keys as [gmap string _] (as an insertion-ordered
    association list where the order of the keys is observed), an exception
    as a constructor of [exn] carried by [result].  The vector engine
    (ChromaDB) and the generation process (ollama, through [subprocess.run])
    are not part of the repository: they are parameters of the development,
    and so are the file system, the document loaders and the text splitter.
    What the code prints or displays is left out. *)

From Stdlib Require Import ZArith QArith Ascii String List Sorted Lia.
#[local] Set Warnings "-clear-no-such-hyp".
From stdpp Require Import base decidable option list strings pretty gmap sorting.

Local Open Scope string_scope.
Local Open Scope Z_scope.

(** ** Python strings *)

Module PyStr.

Definition LF : ascii := ascii_of_nat 10.
Definition slash : ascii := "/"%char.
Definition backslash : ascii := ascii_of_nat 92.

(** ["\n"] and ["\n\n"] *)
Definition nl : string := String LF "".
Definition nlnl : string := String LF (String LF "").

(** [c in s] for a one-character [c] *)
Fixpoint contains (c : ascii) (s : string) : bool :=
  match s with
  | "" => false
  | String a s' => if Ascii.eqb a c then true else contains c s'
  end.

(** [s.split(sep)] for a one-character separator: never the empty list *)
Fixpoint split (sep : ascii) (s : string) : list string :=
  match s with
  | "" => [""]
  | String a s' =>
      if Ascii.eqb a sep then "" :: split sep s'
      else match split sep s' with
           | [] => [String a ""]
           | w :: ws => String a w :: ws
           end
  end.

(** [sep.join(parts)] *)
Fixpoint join (sep : string) (parts : list string) : string :=
  match parts with
  | [] => ""
  | [p] => p
  | p :: ps => p ++ sep ++ join sep ps
  end.

(** [str(n)] and [f"{n}"] for an [int] *)
Definition of_int (n : Z) : string := pretty n.

(** [s.startswith(p)] *)
Fixpoint startswith (p s : string) : bool :=
  match p, s with
  | "", _ => true
  | String a p', String b s' => Ascii.eqb a b && startswith p' s'
  | String _ _, "" => false
  end.

(** [s.replace(old, "")] for a non-empty [old]: the occurrences of [old]
    are removed left to right, and the scan goes on after each removed
    occurrence. [skip] counts the characters of the current occurrence
    that are still to be dropped. *)
Fixpoint remove_all_go (old : string) (skip : nat) (s : string) : string :=
  match s with
  | "" => ""
  | String a s' =>
      match skip with
      | S k => remove_all_go old k s'
      | O =>
          if startswith old s
          then remove_all_go old (Nat.pred (String.length old)) s'
          else String a (remove_all_go old 0 s')
      end
  end.

Definition remove_all (old s : string) : string := remove_all_go old 0 s.

(** [c.isspace()] on the code points below 256 *)
Definition isspace (c : ascii) : bool :=
  let n := nat_of_ascii c in
  ((9 <=? n) && (n <=? 13) || (28 <=? n) && (n <=? 32)
   || (n =? 133) || (n =? 160))%nat.

Fixpoint lstrip (s : string) : string :=
  match s with
  | "" => ""
  | String a s' => if isspace a then lstrip s' else s
  end.

(** [s.rstrip()]: a character is dropped when it and all that follows it
    is white space *)
Fixpoint rstrip (s : string) : string :=
  match s with
  | "" => ""
  | String a s' =>
      match rstrip s' with
      | "" => if isspace a then "" else String a ""
      | r => String a r
      end
  end.

(** [s.strip()] *)
Definition strip (s : string) : string := rstrip (lstrip s).

End PyStr.

(** ** Exceptions and the effect monad *)

(** The exception classes the code can meet; all derive from [Exception]. *)
Inductive exn_class : Type :=
  | TimeoutExpired
  | FileNotFoundError
  | IndexError
  | OtherException (name : string).

(** An exception: its class and [str(e)]. *)
Record exn : Type := mkExn { exn_cls : exn_class; exn_str : string }.

Inductive result (A : Type) : Type :=
  | Ok (a : A)
  | Raise (e : exn).
Arguments Ok {A} a.
Arguments Raise {A} e.

(** Statements that read or change a state [S] and may raise: the state
    reached when an exception is raised is kept, as in Python. *)
Definition M (S A : Type) : Type := S -> result A * S.

Definition ret {S A} (a : A) : M S A := fun s => (Ok a, s).

Definition bind {S A B} (m : M S A) (k : A -> M S B) : M S B :=
  fun s => match m s with
           | (Ok a, s') => k a s'
           | (Raise e, s') => (Raise e, s')
           end.

Definition raise {S A} (e : exn) : M S A := fun s => (Raise e, s).

Definition lift {S A} (r : result A) : M S A := fun s => (r, s).

Definition get {S} : M S S := fun s => (Ok s, s).

Definition modify {S} (f : S -> S) : M S unit := fun s => (Ok tt, f s).

(** [try: m except ...: h e] with a handler for every exception *)
Definition try_except {S A} (m : M S A) (h : exn -> M S A) : M S A :=
  fun s => match m s with
           | (Ok a, s') => (Ok a, s')
           | (Raise e, s') => h e s'
           end.

Declare Scope py_scope.
Delimit Scope py_scope with py.
Notation "x <- m ;; k" := (bind m (fun x => k))
  (at level 100, m at next level, right associativity) : py_scope.
Notation "m ;;; k" := (bind m (fun _ => k))
  (at level 100, right associativity) : py_scope.

(** [l[0]] *)
Definition index0 {A} (l : list A) : result A :=
  match l with
  | x :: _ => Ok x
  | [] => Raise (mkExn IndexError "list index out of range")
  end.

(** ** Data model *)

(** A langchain [Document]: a loaded document, and a chunk of one. The
    loaders of the repository set [source] to the path of the file. *)
Record Document : Type := mkDocument {
  page_content : string;
  metadata : gmap string string
}.

(** The dict that [collection.query] returns: one row per query text. *)
Record QueryResult : Type := mkQueryResult {
  ids : list (list string);
  documents : list (list string);
  metadatas : list (list (gmap string string));
  distances : list (list Q)
}.

(** ** The vector engine (ChromaDB), as an interface *)

Class VectorEngine : Type := {
  Collection : Type;
  (** [collection.count()] *)
  coll_count : Collection -> Z;
  (** [collection.add(documents=, metadatas=, ids=)] *)
  coll_add : Collection -> list string -> list (gmap string string) ->
             list string -> result Collection;
  (** [collection.query(query_texts=, n_results=)] *)
  coll_query : Collection -> list string -> Z -> result QueryResult
}.

(** What the code relies on when it asks for no more results than the
    collection holds: one row for the one query text, of exactly the
    requested length, nearest first. *)
Record EngineContract (E : VectorEngine) : Prop := {
  count_nonneg : forall c : Collection, 0 <= coll_count c;
  query_top_n : forall (c : Collection) (q : string) (n : Z),
    0 <= n <= coll_count c ->
    exists rids docs metas dists,
      coll_query c [q] n = Ok (mkQueryResult [rids] [docs] [metas] [dists]) /\
      Z.of_nat (length rids) = n /\ Z.of_nat (length docs) = n /\
      Z.of_nat (length metas) = n /\ Z.of_nat (length dists) = n /\
      Sorted Qle dists
}.

(** ** [src/document_processor.py] *)

Module document_processor.

(** langchain's [RecursiveCharacterTextSplitter] is not part of the
    repository: [split_documents] is taken with the arguments the
    constructor gives it (chunk size, overlap, separators). *)
Class TextSplitter : Type := {
  split_documents : Z -> Z -> list string -> list Document -> list Document
}.

Record DocumentProcessor : Type := mkDocumentProcessor {
  chunk_size : Z;
  chunk_overlap : Z
}.

(** The [separators] argument of [__init__]: ["\n\n", "\n", ".", " ", ""] *)
Definition separators : list string := [PyStr.nlnl; PyStr.nl; "."; " "; ""].

Definition process_documents `{TextSplitter}
    (self : DocumentProcessor) (documents : list Document) : list Document :=
  match documents with
  | [] => []
  | _ => split_documents (chunk_size self) (chunk_overlap self) separators documents
  end.

(** The values of the dict that [get_stats] returns. *)
Inductive stat : Type :=
  | SInt (n : Z)
  | SList (l : list string).

(** [list(set(xs))]: the distinct elements, in an order Python does not fix *)
Definition list_of_set (xs : list string) : list string :=
  elements (list_to_set xs : gset string).

Definition get_stats (chunks : list Document) : gmap string stat :=
  match chunks with
  | [] =>
      <["total_chunks" := SInt 0]>
      (<["avg_chunk_size" := SInt 0]>
      (<["sources" := SList []]> ∅))
  | _ =>
      let total_chars :=
        foldr Z.add 0 (map (fun chunk => Z.of_nat (String.length (page_content chunk))) chunks) in
      let avg_size := total_chars / Z.of_nat (length chunks) in
      let sources :=
        list_of_set (map (fun chunk => default "unknown" (metadata chunk !! "source")) chunks) in
      <["total_chunks" := SInt (Z.of_nat (length chunks))]>
      (<["avg_chunk_size" := SInt avg_size]>
      (<["total_characters" := SInt total_chars]>
      (<["sources" := SList sources]> ∅)))
  end.

(** The file system and the loaders of langchain, as [load_documents]
    sees them: [load_text path] is [TextLoader(path, encoding='utf-8').load()]
    and [load_pdf path] is [PyPDFLoader(path).load()]. *)
Class FileSystem : Type := {
  path_exists : string -> bool;
  listdir : string -> result (list string);
  path_join : string -> string -> string;
  isdir : string -> bool;
  load_text : string -> result (list Document);
  load_pdf : string -> result (list Document)
}.

(** [os.path.splitext(filename)[1]] for a name without a directory: from
    the last dot on, when a character other than a dot comes before it;
    [seen] tells whether one was read already. *)
Fixpoint ext_from (seen : bool) (s : string) : option string :=
  match s with
  | "" => None
  | String c s' =>
      let dot := Ascii.eqb c "."%char in
      match ext_from (seen || negb dot) s' with
      | Some e => Some e
      | None => if dot && seen then Some s else None
      end
  end.

Definition splitext_ext (filename : string) : string :=
  default "" (ext_from false filename).

Definition supported_extensions : list string := [".txt"; ".pdf"].

(** [a <= b] on [str]: the order of [sorted] *)
Definition str_le (a b : string) : Prop := String.leb a b = true.

#[global] Instance str_le_dec (a b : string) : Decision (str_le a b) :=
  decide (String.leb a b = true).

(** [sorted(names)] *)
Definition sorted (names : list string) : list string := merge_sort str_le names.

Section Loading.
Context `{FS : FileSystem}.

(** One turn of the loop of [load_documents], on [documents]. *)
Definition load_file (directory_path : string) (documents : list Document)
    (filename : string) : list Document :=
  let file_path := path_join directory_path filename in
  if isdir file_path then documents
  else
    let ext := splitext_ext filename in
    if negb (bool_decide (ext ∈ supported_extensions)) then documents
    else
      let loaded :=
        if String.eqb ext ".txt" then load_text file_path else load_pdf file_path in
      match loaded with
      | Ok loaded_docs => app documents loaded_docs
      | Raise _ => documents
      end.

Definition load_documents (directory_path : string) : result (list Document) :=
  if negb (path_exists directory_path)
  then Raise (mkExn FileNotFoundError ("Directory not found: " ++ directory_path))
  else
    match listdir directory_path with
    | Raise e => Raise e
    | Ok names => Ok (fold_left (load_file directory_path) (sorted names) [])
    end.

End Loading.

End document_processor.

(** ** [src/vector_store.py] *)

Module vector_store.
Section Engine.
Context `{E : VectorEngine}.

Record VectorStore : Type := mkVectorStore {
  collection_name : string;
  persist_directory : string;
  collection : Collection
}.

Definition set_collection (c : Collection) (self : VectorStore) : VectorStore :=
  mkVectorStore (collection_name self) (persist_directory self) c.

(** [range(0, n, step)] for a positive [step] *)
Definition range_step (n step : nat) : list nat :=
  map (fun j => (j * step)%nat) (seq 0 (Nat.div (n + step - 1) step)).

(** [l[i:j]] for [0 <= i] and [0 <= j] *)
Definition slice {A} (i j : nat) (l : list A) : list A :=
  take (j - i) (drop i l).

(** The local [ids] of [add_documents]:
    [[f"doc_{i}" for i in range(len(chunks))]] *)
Definition doc_ids (chunks : list Document) : list string :=
  map (fun i => "doc_" ++ PyStr.of_int (Z.of_nat i)) (seq 0 (length chunks)).

Definition batch_size : nat := 100.

(** One turn of the batch loop of [add_documents]. *)
Definition add_batch (documents : list string) (metadatas : list (gmap string string))
    (ids : list string) (i : nat) : M VectorStore unit :=
  let end_idx := Nat.min (i + batch_size) (length documents) in
  (self <- get ;;
   c <- lift (coll_add (collection self)
                (slice i end_idx documents)
                (slice i end_idx metadatas)
                (slice i end_idx ids)) ;;
   modify (set_collection c))%py.

Fixpoint for_each {S A} (l : list A) (body : A -> M S unit) : M S unit :=
  match l with
  | [] => ret tt
  | x :: l' => (body x ;;; for_each l' body)%py
  end.

Definition add_documents (chunks : list Document) : M VectorStore unit :=
  match chunks with
  | [] => ret tt
  | _ =>
      let documents := map page_content chunks in
      let metadatas := map metadata chunks in
      let ids := doc_ids chunks in
      for_each (range_step (length documents) batch_size)
               (add_batch documents metadatas ids)
  end.

Definition search (self : VectorStore) (query : string) (n_results : Z)
    : result QueryResult :=
  coll_query (collection self) [query]
             (Z.min n_results (coll_count (collection self))).

Definition get_count (self : VectorStore) : Z :=
  coll_count (collection self).

(** The ChromaDB client behind the store: [client.delete_collection(name)]
    and [client.create_collection(name=, metadata=)]. *)
Class VectorClient : Type := {
  client_delete_collection : string -> result unit;
  client_create_collection : string -> gmap string string -> result Collection
}.

Definition cosine : gmap string string := {[ "hnsw:space" := "cosine" ]}.

Definition clear `{C : VectorClient} : M VectorStore unit :=
  (self <- get ;;
   lift (client_delete_collection (collection_name self)) ;;;
   c <- lift (client_create_collection (collection_name self) cosine) ;;
   modify (set_collection c))%py.

Definition delete_collection `{C : VectorClient} : M VectorStore unit :=
  (self <- get ;;
   lift (client_delete_collection (collection_name self)))%py.

End Engine.
End vector_store.

(** ** [src/chatbot.py] *)

Module chatbot.

(** What [subprocess.run(..., capture_output=True, text=True)] returns. *)
Record CompletedProcess : Type := mkCompletedProcess {
  returncode : Z;
  stdout : string;
  stderr : string
}.

(** The operating system's side of [subprocess.run]: from the commands
    run so far and the command line, the completed process or the
    exception raised ([TimeoutExpired], [FileNotFoundError], ...). *)
Class Subprocess : Type := {
  subprocess_run : list (list string) -> list string -> result CompletedProcess
}.

(** An entry of [conversation_history], and the dict [chat] returns. *)
Record Turn : Type := mkTurn {
  question : string;
  turn_answer : string;
  turn_sources : list string
}.

Record Response : Type := mkResponse {
  answer : string;
  sources : list string
}.

Section Backends.
Context `{E : VectorEngine} `{P : Subprocess}.

Record CompanyKBChatbot : Type := mkChatbot {
  model : string;
  vector_store : vector_store.VectorStore;
  conversation_history : list Turn
}.

(** The chatbot together with the commands it has run so far. *)
Record World : Type := mkWorld {
  self : CompanyKBChatbot;
  spawned : list (list string)
}.

Definition run (argv : list string) : M World CompletedProcess :=
  fun w => (subprocess_run (spawned w) argv,
            mkWorld (self w) (app (spawned w) [argv])).

Definition append_history (t : Turn) (w : World) : World :=
  mkWorld (mkChatbot (model (self w)) (vector_store (self w))
                     (app (conversation_history (self w)) [t]))
          (spawned w).

Definition search_knowledge_base (this : CompanyKBChatbot)
    (query : string) (n_results : Z) : result QueryResult :=
  vector_store.search (vector_store this) query n_results.

(** An insertion-ordered dict whose values are all [None]. *)
Fixpoint dict_setdefault (k : string) (d : list string) : list string :=
  match d with
  | [] => [k]
  | k' :: d' => if String.eqb k' k then d else k' :: dict_setdefault k d'
  end.

(** [list(dict.fromkeys(l))] *)
Definition dict_fromkeys (l : list string) : list string :=
  fold_left (fun d k => dict_setdefault k d) l [].

(** [source.split('/')[-1].split('\\')[-1] if ('/' in source or
    '\\' in source) else source] *)
Definition source_name (source : string) : string :=
  if PyStr.contains PyStr.slash source || PyStr.contains PyStr.backslash source
  then List.last (PyStr.split PyStr.backslash
                    (List.last (PyStr.split PyStr.slash source) "")) ""
  else source.

(** [enumerate(l)] *)
Definition enumerate {A} (l : list A) : list (nat * A) :=
  zip (seq 0 (length l)) l.

(** [f"[Document {i+1} - {source_name}]:\n{doc}"] *)
Definition context_part (i : nat) (name doc : string) : string :=
  "[Document " ++ PyStr.of_int (Z.of_nat i + 1) ++ " - " ++ name
    ++ "]:" ++ PyStr.nl ++ doc.

(** The body of the loop of [format_context], on the pair
    [(context_parts, sources)]. *)
Definition format_step (acc : list string * list string)
    (item : nat * (string * gmap string string)) : list string * list string :=
  let '(i, (doc, metadata)) := item in
  let source := default "Unknown" (metadata !! "source") in
  let name := source_name source in
  (app acc.1 [context_part i name doc], app acc.2 [name]).

Definition format_context (search_results : QueryResult)
    : result (string * list string) :=
  match index0 (documents search_results) with
  | Raise e => Raise e
  | Ok docs =>
      match index0 (metadatas search_results) with
      | Raise e => Raise e
      | Ok metas =>
          let '(context_parts, sources) :=
            fold_left format_step (enumerate (zip docs metas)) ([], []) in
          Ok (PyStr.join PyStr.nlnl context_parts, dict_fromkeys sources)
      end
  end.

Definition system_prompt : string :=
  "You are a helpful AI assistant for ACME Corporation. Answer questions based ONLY on the provided documents. Be professional and concise.".

Definition make_prompt (user_question context : string) : string :=
  system_prompt ++ PyStr.nlnl ++ "Context:" ++ PyStr.nl ++ context
    ++ PyStr.nlnl ++ "Question: " ++ user_question ++ PyStr.nlnl ++ "Answer:".

Definition msg_no_response : string :=
  "No response generated. Please try again.".
Definition msg_timed_out : string :=
  "Response timed out after 2 minutes. Please try a simpler question.".

Definition generate_response (user_question context : string) : M World string :=
  let prompt := make_prompt user_question context in
  try_except
    (w <- get ;;
     result <- run ["ollama"; "run"; model (self w); prompt] ;;
     if negb (returncode result =? 0)
     then ret ("Error generating response: " ++ stderr result)
     else
       let response := PyStr.strip (stdout result) in
       let response := PyStr.strip (PyStr.remove_all "/bye" response) in
       if String.eqb response ""
       then ret msg_no_response
       else ret response)%py
    (fun e =>
       match exn_cls e with
       | TimeoutExpired => ret msg_timed_out
       | _ => ret ("Error: " ++ exn_str e)
       end).

Definition msg_not_found : string :=
  "I couldn't find any relevant information in the company documents.".

Definition chat (user_question : string) : M World Response :=
  (w <- get ;;
   search_results <- lift (search_knowledge_base (self w) user_question 3) ;;
   row <- lift (index0 (documents search_results)) ;;
   match row with
   | [] => ret (mkResponse msg_not_found [])
   | _ =>
       cs <- lift (format_context search_results) ;;
       answer <- generate_response user_question cs.1 ;;
       modify (append_history (mkTurn user_question answer cs.2)) ;;;
       ret (mkResponse answer cs.2)
   end)%py.

Definition get_conversation_history (this : CompanyKBChatbot) : list Turn :=
  conversation_history this.

Definition clear_history : M World unit :=
  modify (fun w => mkWorld (mkChatbot (model (self w)) (vector_store (self w)) [])
                           (spawned w)).

(** [subprocess.run] while the chatbot is being built: only the commands
    run so far are there. *)
Definition run_cmd (argv : list string) : M (list (list string)) CompletedProcess :=
  fun log => (subprocess_run log argv, app log [argv]).

Definition _check_ollama : M (list (list string)) bool :=
  try_except
    (result <- run_cmd ["ollama"; "list"] ;;
     ret (returncode result =? 0))%py
    (fun e =>
       match exn_cls e with
       | TimeoutExpired | FileNotFoundError => ret false
       | _ => raise e
       end).

Definition msg_ollama_unavailable : string :=
  "Ollama is not available. Please ensure:" ++ PyStr.nl
  ++ "1. Ollama is installed from https://ollama.ai" ++ PyStr.nl
  ++ "2. You've activated the conda environment: conda activate company-kb" ++ PyStr.nl
  ++ "3. Test with: ollama --version".

(** [__init__]: [new_store] is what [VectorStore()] returns or raises. *)
Definition __init__ (model : string) (new_store : result vector_store.VectorStore)
    : M (list (list string)) CompanyKBChatbot :=
  (store <- lift new_store ;;
   available <- _check_ollama ;;
   if available : bool
   then ret (mkChatbot model store [])
   else raise (mkExn (OtherException "RuntimeError") msg_ollama_unavailable))%py.

End Backends.
End chatbot.

(** ** [scripts/index_documents.py] *)

Module index_documents.

(** [c.lower()] on the code points below 256 *)
Definition lower_char (c : ascii) : ascii :=
  let n := nat_of_ascii c in
  if ((65 <=? n) && (n <=? 90)
      || (192 <=? n) && (n <=? 222) && negb (n =? 215))%nat
  then ascii_of_nat (n + 32)
  else c.

(** [s.lower()] *)
Fixpoint lower (s : string) : string :=
  match s with
  | "" => ""
  | String c s' => String (lower_char c) (lower s')
  end.

Section Script.
Context `{E : VectorEngine} `{C : !vector_store.VectorClient}
        `{FS : document_processor.FileSystem}
        `{TS : document_processor.TextSplitter}.

(** The store that [VectorStore()] returned and the lines still to be
    read from the standard input. *)
Record Run : Type := mkRun {
  store : vector_store.VectorStore;
  stdin : list string
}.

(** [input(...)] *)
Definition input : M Run string :=
  fun r =>
    match stdin r with
    | [] => (Raise (mkExn (OtherException "EOFError") "EOF when reading a line"), r)
    | line :: rest => (Ok line, mkRun (store r) rest)
    end.

(** A method of the store, called on the store of the run. *)
Definition on_store {A} (m : M vector_store.VectorStore A) : M Run A :=
  fun r => let '(a, vs) := m (store r) in (a, mkRun vs (stdin r)).

Definition index_documents (documents_path : string) (force_reindex : bool)
    : M Run bool :=
  let processor := document_processor.mkDocumentProcessor 500 50 in
  (r <- get ;;
   let existing_count := vector_store.get_count (store r) in
   (if 0 <? existing_count
    then
      if force_reindex then on_store vector_store.clear
      else
        response <- input ;;
        if String.eqb (lower response) "y"
        then on_store vector_store.clear
        else ret tt
    else ret tt) ;;;
   match document_processor.load_documents documents_path with
   | Raise e =>
       match exn_cls e with
       | FileNotFoundError => ret false
       | _ => raise e
       end
   | Ok [] => ret false
   | Ok docs =>
       let chunks := document_processor.process_documents processor docs in
       match chunks with
       | [] => ret false
       | _ =>
           on_store (vector_store.add_documents chunks) ;;;
           r' <- get ;;
           results <- lift (vector_store.search (store r') "vacation policy" 1) ;;
           row <- lift (index0 (documents results)) ;;
           ret true
       end
   end)%py.

(** [main]: the exit code for the outcome of [index_documents] *)
Definition exit_code (success : bool) : Z := if success then 0 else 1.

End Script.
End index_documents.

(** ** [src/app.py]: the handling of one prompt *)

Module app.

(** An entry of [st.session_state.messages]; a user's message has no
    [sources] key. *)
Record Message : Type := mkMessage {
  role : string;
  content : string;
  msg_sources : option (list string)
}.

(** The bytes of the prefix of an error message, a cross mark and
    [ Error: ]. *)
Definition error_prefix : string :=
  String (ascii_of_nat 226) (String (ascii_of_nat 157) (String (ascii_of_nat 140)
    " Error: ")).

Section Page.
Context `{E : VectorEngine} `{P : chatbot.Subprocess}.

Record Session : Type := mkSession {
  bot : chatbot.World;
  messages : list Message
}.

Definition append_message (m : Message) (s : Session) : Session :=
  mkSession (bot s) (app (messages s) [m]).

(** A method of the chatbot, called on the chatbot of the session. *)
Definition on_bot {A} (m : M chatbot.World A) : M Session A :=
  fun s => let '(a, w) := m (bot s) in (a, mkSession w (messages s)).

(** [user_input or st.chat_input(...)] *)
Definition first_truthy (user_input chat_input : option string) : option string :=
  match user_input with
  | Some (String _ _) => user_input
  | _ => chat_input
  end.

(** The [if prompt := ...:] block. *)
Definition handle_prompt (user_input chat_input : option string) : M Session unit :=
  match first_truthy user_input chat_input with
  | Some (String c p as prompt) =>
      (modify (append_message (mkMessage "user" prompt None)) ;;;
       try_except
         (response <- on_bot (chatbot.chat prompt) ;;
          modify (append_message
                    (mkMessage "assistant" (chatbot.answer response)
                               (Some (chatbot.sources response)))))
         (fun e =>
            modify (append_message
                      (mkMessage "assistant" (error_prefix ++ exn_str e) (Some [])))))%py
  | _ => ret tt
  end.

End Page.
End app.

(** ** A reference engine and a reference process

    An engine that keeps its entries in a list and ranks them by the
    difference in length between the query and the document. It stands
    for ChromaDB wherever a concrete engine is needed, and shows that the
    contract above can be met. *)

Module reference.

Definition Entry : Type := string * string * gmap string string.

Definition entry_id (e : Entry) : string := e.1.1.
Definition entry_document (e : Entry) : string := e.1.2.
Definition entry_metadata (e : Entry) : gmap string string := e.2.

Definition distance (query : string) (e : Entry) : Z :=
  Z.abs (Z.of_nat (String.length query) - Z.of_nat (String.length (entry_document e))).

Definition nearer (query : string) (a b : Entry) : Prop :=
  distance query a <= distance query b.

#[global] Instance nearer_dec query a b : Decision (nearer query a b) :=
  Z_le_dec (distance query a) (distance query b).

Definition nearest (query : string) (n : nat) (c : list Entry) : list Entry :=
  take n (merge_sort (nearer query) c).

Definition query_all (c : list Entry) (query_texts : list string) (n : nat)
    : QueryResult :=
  let rows := map (fun q => nearest q n c) query_texts in
  mkQueryResult
    (map (map entry_id) rows)
    (map (map entry_document) rows)
    (map (map entry_metadata) rows)
    (map (fun q => map (fun e => inject_Z (distance q e)) (nearest q n c)) query_texts).

#[global] Instance ListEngine : VectorEngine := {|
  Collection := list Entry;
  coll_count c := Z.of_nat (length c);
  coll_add c documents metadatas ids :=
    Ok (app c (zip (zip ids documents) metadatas));
  coll_query c query_texts n :=
    if (n <? 0) || (Z.of_nat (length c) <? n)
    then Raise (mkExn (OtherException "ValueError") "n_results out of range")
    else Ok (query_all c query_texts (Z.to_nat n))
|}.

(** A process that ends the same way whatever it is asked. *)
Definition ConstProcess (r : result chatbot.CompletedProcess) : chatbot.Subprocess :=
  {| chatbot.subprocess_run := fun _ _ => r |}.

Definition empty_store : vector_store.VectorStore :=
  vector_store.mkVectorStore "company_docs" "./data/chroma_db" ([] : list Entry).

Definition chunk (text source : string) : Document :=
  mkDocument text {[ "source" := source ]}.

End reference.

(** ** The specification's wording of [formatContext] *)

Module Spec.

Definition is_separator (c : ascii) : bool :=
  Ascii.eqb c PyStr.slash || Ascii.eqb c PyStr.backslash.

Fixpoint has_separator (s : string) : bool :=
  match s with
  | "" => false
  | String c s' => is_separator c || has_separator s'
  end.

(** The final path segment: what follows the last separator, forward
    slash or back slash; the whole string when there is none. *)
Fixpoint final_path_segment (s : string) : string :=
  match s with
  | "" => ""
  | String c s' =>
      if has_separator s' then final_path_segment s'
      else if is_separator c then s' else s
  end.

Definition shortSourceName (chunk : string * gmap string string) : string :=
  final_path_segment (default "Unknown" (chunk.2 !! "source")).

(** The elements that do not occur earlier in the list, in order. *)
Definition first_occurrences (l : list string) : list string :=
  omap (fun ix => if decide (ix.2 ∈ take ix.1 l) then None else Some ix.2)
       (imap pair l).

(** ["[Document i - <shortSourceName>]: <chunkText>"], with whatever
    stands between the label and the text as [gap]. *)
Definition labeled (gap : string) (i : nat) (chunk : string * gmap string string)
    : string :=
  "[Document " ++ PyStr.of_int (Z.of_nat i) ++ " - " ++ shortSourceName chunk
    ++ "]:" ++ gap ++ chunk.1.

Definition formatContext (gap : string)
    (chunks : list (string * gmap string string)) : string * list string :=
  (PyStr.join PyStr.nlnl (imap (fun i c => labeled gap (S i) c) chunks),
   first_occurrences (map shortSourceName chunks)).

End Spec.

(** ** Auxiliary definitions *)

(** [s.split(sep)[-1]] *)
Definition last_part (sep : ascii) (s : string) : string :=
  List.last (PyStr.split sep s) "".

(** The elements of [l] that occur neither in [seen] nor earlier in [l]. *)
Fixpoint unseen (seen l : list string) : list string :=
  match l with
  | [] => []
  | x :: l' =>
      if decide (x ∈ seen) then unseen (app seen [x]) l'
      else x :: unseen (app seen [x]) l'
  end.

(** The short source name [format_context] gives a chunk. *)
Definition chunk_source_name (c : string * gmap string string) : string :=
  chatbot.source_name (default "Unknown" (c.2 !! "source")).

Section Generation.
Context `{E : VectorEngine} `{P : chatbot.Subprocess}.

(** The command line of [generate_response]. *)
Definition ollama_argv (w : chatbot.World) (q context : string) : list string :=
  ["ollama"; "run"; chatbot.model (chatbot.self w); chatbot.make_prompt q context].

(** The answer [generate_response] builds from the way the process ended. *)
Definition answer_of (r : result chatbot.CompletedProcess) : string :=
  match r with
  | Ok cp =>
      if chatbot.returncode cp =? 0
      then
        let response :=
          PyStr.strip (PyStr.remove_all "/bye" (PyStr.strip (chatbot.stdout cp))) in
        if String.eqb response "" then chatbot.msg_no_response else response
      else "Error generating response: " ++ chatbot.stderr cp
  | Raise e =>
      match exn_cls e with
      | TimeoutExpired => chatbot.msg_timed_out
      | _ => "Error: " ++ exn_str e
      end
  end.

End Generation.

(** ** File names and what a file contributes *)

(** Some character of [s] is not a dot. *)
Fixpoint has_nondot (s : string) : bool :=
  match s with
  | "" => false
  | String c s' => negb (Ascii.eqb c "."%char) || has_nondot s'
  end.

Fixpoint has_dot (s : string) : bool :=
  match s with
  | "" => false
  | String c s' => Ascii.eqb c "."%char || has_dot s'
  end.

(** [filename] is a regular file with a supported extension whose loader
    returns [loaded]. *)
Definition loads `{FS : document_processor.FileSystem}
    (directory_path filename : string) (loaded : list Document) : Prop :=
  let file_path := document_processor.path_join directory_path filename in
  document_processor.isdir file_path = false /\
  ((document_processor.splitext_ext filename = ".txt" /\
    document_processor.load_text file_path = Ok loaded) \/
   (document_processor.splitext_ext filename = ".pdf" /\
    document_processor.load_pdf file_path = Ok loaded)).

(** The same file system with another answer of [os.listdir]. *)
Definition relisted (FS : document_processor.FileSystem)
    (listing : string -> result (list string)) : document_processor.FileSystem :=
  {| document_processor.path_exists := document_processor.path_exists;
     document_processor.listdir := listing;
     document_processor.path_join := document_processor.path_join;
     document_processor.isdir := document_processor.isdir;
     document_processor.load_text := document_processor.load_text;
     document_processor.load_pdf := document_processor.load_pdf |}.

(** ** Assumptions on the engine's [add] *)

Section EngineAdd.
Context `{E : VectorEngine}.

(** An engine that counts what it is given: an accepted add of [n]
    aligned entries raises the count by [n]. *)
Definition counts_adds : Prop :=
  forall (c c' : Collection) docs metas ids,
    length docs = length ids -> length metas = length ids ->
    coll_add c docs metas ids = Ok c' ->
    coll_count c' = coll_count c + Z.of_nat (length ids).

(** An engine for which adding a list of entries is adding a first part
    of it and then the rest. *)
Definition adds_in_parts : Prop :=
  forall (c : Collection) docs1 docs2 metas1 metas2 ids1 ids2,
    docs1 <> [] -> docs2 <> [] ->
    length docs1 = length ids1 -> length metas1 = length ids1 ->
    coll_add c (app docs1 docs2) (app metas1 metas2) (app ids1 ids2)
    = match coll_add c docs1 metas1 ids1 with
      | Ok c' => coll_add c' docs2 metas2 ids2
      | Raise e => Raise e
      end.

End EngineAdd.

(** ** The client and the steps of the indexing script *)

Section ScriptSteps.
Context `{E : VectorEngine} `{C : !vector_store.VectorClient}
        `{FS : document_processor.FileSystem}
        `{TS : document_processor.TextSplitter}.

(** A client whose new collections hold nothing. *)
Definition creates_empty : Prop :=
  forall (name : string) (meta : gmap string string) (c : Collection),
    vector_store.client_create_collection name meta = Ok c -> coll_count c = 0.

(** The chunks the script makes of the loaded documents. *)
Definition script_chunks (docs : list Document) : list Document :=
  document_processor.process_documents
    (document_processor.mkDocumentProcessor 500 50) docs.

(** Steps 2 to 6 of [index_documents]: what follows the decision to clear. *)
Definition load_and_index (documents_path : string) : M index_documents.Run bool :=
  match document_processor.load_documents documents_path with
  | Raise e =>
      match exn_cls e with
      | FileNotFoundError => ret false
      | _ => raise e
      end
  | Ok [] => ret false
  | Ok docs =>
      let chunks := script_chunks docs in
      match chunks with
      | [] => ret false
      | _ =>
          (index_documents.on_store (vector_store.add_documents chunks) ;;;
           r' <- get ;;
           results <- lift (vector_store.search (index_documents.store r')
                              "vacation policy" 1) ;;
           row <- lift (index0 (documents results)) ;;
           ret true)%py
      end
  end.

(** Step 1 of [index_documents]: whether to clear the index. *)
Definition clear_decision (force_reindex : bool) : M index_documents.Run unit :=
  (r <- get ;;
   if 0 <? vector_store.get_count (index_documents.store r)
   then
     if force_reindex then index_documents.on_store vector_store.clear
     else
       response <- index_documents.input ;;
       if String.eqb (index_documents.lower response) "y"
       then index_documents.on_store vector_store.clear
       else ret tt
   else ret tt)%py.

End ScriptSteps.

(** ** A session: calls of [chat] and [clear_history] in any order *)

Inductive session_op : Type :=
  | Chat (user_question : string)
  | ClearHistory.

Section Session.
Context `{E : VectorEngine} `{P : chatbot.Subprocess}.

(** One call; an exception that [chat] raises is caught by the caller, as
    [app.py] does, and the session goes on. *)
Definition session_step (w : chatbot.World) (o : session_op) : chatbot.World :=
  match o with
  | Chat q => (chatbot.chat q w).2
  | ClearHistory => (chatbot.clear_history w).2
  end.

Definition session (ops : list session_op) (w : chatbot.World) : chatbot.World :=
  fold_left session_step ops w.

End Session.

(** ** An engine that is down *)

Module unavailable.

Definition connection_refused : exn :=
  mkExn (OtherException "ConnectionError") "connection refused".

(** Every request raises. *)
Definition DownEngine : VectorEngine := {|
  Collection := unit;
  coll_count _ := 0;
  coll_add _ _ _ _ := Raise connection_refused;
  coll_query _ _ _ := Raise connection_refused
|}.

Definition store : @vector_store.VectorStore DownEngine :=
  @vector_store.mkVectorStore DownEngine "company_docs" "./data/chroma_db" tt.

Definition world (P : chatbot.Subprocess) : @chatbot.World DownEngine :=
  @chatbot.mkWorld DownEngine (@chatbot.mkChatbot DownEngine "llama2" store []) [].

End unavailable.

(** ** Concrete stores, processes and search results *)

Module fixtures.

Definition policy : Document :=
  reference.chunk "Employees receive 15 vacation days per year."
                  "data/documents/policy.txt".
Definition remote : Document :=
  reference.chunk "Remote work is permitted up to 3 days per week."
                  "data/documents/remote.txt".

(** The store after [add_documents [policy; remote]] on an empty one. *)
Definition indexed_store : vector_store.VectorStore :=
  (vector_store.add_documents (E := reference.ListEngine)
     [policy; remote] reference.empty_store).2.

(** The store after a second call, [add_documents [remote]]. *)
Definition reindexed_store : vector_store.VectorStore :=
  (vector_store.add_documents (E := reference.ListEngine)
     [remote] indexed_store).2.

Definition timing_out : chatbot.Subprocess :=
  reference.ConstProcess (Raise (mkExn TimeoutExpired "timed out after 120 seconds")).

Definition failing : chatbot.Subprocess :=
  reference.ConstProcess (Ok (chatbot.mkCompletedProcess 1 "" "model not found")).

Definition silent : chatbot.Subprocess :=
  reference.ConstProcess (Ok (chatbot.mkCompletedProcess 0 "" "")).

Definition world (P : chatbot.Subprocess) (store : vector_store.VectorStore)
    : chatbot.World (E := reference.ListEngine) :=
  chatbot.mkWorld (chatbot.mkChatbot "llama2" store []) [].

(** A search result whose sources are [a.txt], [b.txt], [a.txt]. *)
Definition three_chunks : QueryResult :=
  mkQueryResult
    [["doc_0"; "doc_1"; "doc_2"]]
    [["first"; "second"; "third"]]
    [[ {[ "source" := "data/documents/a.txt" ]};
       {[ "source" := "C:\docs\b.txt" ]};
       {[ "source" := "a.txt" ]} ]]
    [[0%Q; 0%Q; 0%Q]].

Definition one_chunk : QueryResult :=
  mkQueryResult [["doc_0"]] [["x"]] [[ {[ "source" := "a.txt" ]} ]] [[0%Q]].

End fixtures.

(** ** A documents directory, a splitter and a client *)

Module disk.

Definition policy_path : string := "data/documents/policy.txt".
Definition remote_path : string := "data/documents/remote.txt".

Definition unreadable : exn :=
  mkExn (OtherException "PdfReadError") "EOF marker not found".

(** A directory with two text files, a file of another kind, a PDF that
    cannot be read, a PDF with an upper-case extension and a folder. *)
Definition SampleFS : document_processor.FileSystem := {|
  document_processor.path_exists p := String.eqb p "data/documents";
  document_processor.listdir p :=
    if String.eqb p "data/documents"
    then Ok ["remote.txt"; "notes.md"; "policy.txt"; "broken.pdf"; "SCAN.PDF"; "archive"]
    else Raise (mkExn FileNotFoundError "No such file or directory");
  document_processor.path_join d f := d ++ "/" ++ f;
  document_processor.isdir p := String.eqb p "data/documents/archive";
  document_processor.load_text p :=
    if String.eqb p policy_path then Ok [fixtures.policy]
    else if String.eqb p remote_path then Ok [fixtures.remote]
    else Raise (mkExn FileNotFoundError "No such file or directory");
  document_processor.load_pdf p := Raise unreadable
|}.

(** A splitter that keeps each document whole. *)
Definition WholeDocuments : document_processor.TextSplitter :=
  {| document_processor.split_documents _ _ _ docs := docs |}.

(** The client of the reference engine. *)
Definition ListClient : @vector_store.VectorClient reference.ListEngine := {|
  vector_store.client_delete_collection _ := Ok tt;
  vector_store.client_create_collection _ _ := Ok ([] : list reference.Entry)
|}.

Definition run (store : @vector_store.VectorStore reference.ListEngine)
    (stdin : list string) : @index_documents.Run reference.ListEngine :=
  @index_documents.mkRun reference.ListEngine store stdin.

Definition session (P : chatbot.Subprocess)
    (store : @vector_store.VectorStore reference.ListEngine)
    : @app.Session reference.ListEngine :=
  @app.mkSession reference.ListEngine (fixtures.world P store) [].

End disk.

(** * Properties *)

(** ** Splitting a path *)

Section SplitFacts.
Variable sep : ascii.

Lemma split_no_sep (s : string) :
  PyStr.contains sep s = false -> PyStr.split sep s = [s].
Proof.
  induction s as [|a s IH]; simpl; [done|].
  destruct (Ascii.eqb a sep); [done|].
  intros H. by rewrite (IH H).
Qed.

Lemma split_with_sep (s : string) :
  PyStr.contains sep s = true ->
  exists w v ws, PyStr.split sep s = w :: v :: ws.
Proof.
  induction s as [|a s IH]; simpl; [done|].
  destruct (Ascii.eqb a sep) eqn:Ha.
  - intros _. destruct (PyStr.contains sep s) eqn:Hc.
    + destruct (IH eq_refl) as (w & v & ws & ->). eauto.
    + rewrite (split_no_sep s Hc). eauto.
  - intros Hc. destruct (IH Hc) as (w & v & ws & ->). eauto.
Qed.

Lemma last_part_no_sep (s : string) :
  PyStr.contains sep s = false -> last_part sep s = s.
Proof. intros H. unfold last_part. by rewrite split_no_sep. Qed.

Lemma last_part_cons (a : ascii) (s : string) :
  last_part sep (String a s) =
    if PyStr.contains sep s then last_part sep s
    else if Ascii.eqb a sep then s else String a s.
Proof.
  unfold last_part. simpl.
  destruct (PyStr.contains sep s) eqn:Hc.
  - destruct (split_with_sep s Hc) as (w & v & ws & ->).
    by destruct (Ascii.eqb a sep).
  - rewrite (split_no_sep s Hc). by destruct (Ascii.eqb a sep).
Qed.
End SplitFacts.

Lemma has_separator_contains (s : string) :
  Spec.has_separator s =
    PyStr.contains PyStr.slash s || PyStr.contains PyStr.backslash s.
Proof.
  induction s as [|a s IH]; simpl; [done|].
  rewrite IH. unfold Spec.is_separator.
  destruct (Ascii.eqb a PyStr.slash), (Ascii.eqb a PyStr.backslash); simpl;
    try done; by rewrite ?orb_true_r.
Qed.

Lemma last_parts_final_segment (s : string) :
  last_part PyStr.backslash (last_part PyStr.slash s) = Spec.final_path_segment s.
Proof.
  induction s as [|a s IH]; [done|].
  simpl Spec.final_path_segment.
  rewrite has_separator_contains, (last_part_cons PyStr.slash).
  destruct (PyStr.contains PyStr.slash s) eqn:Hs; simpl; [done|].
  rewrite (last_part_no_sep _ _ Hs) in IH.
  unfold Spec.is_separator.
  destruct (Ascii.eqb a PyStr.slash) eqn:Ha; simpl.
  - rewrite IH. destruct (PyStr.contains PyStr.backslash s) eqn:Hb; [done|].
    rewrite <- IH. by apply last_part_no_sep.
  - rewrite last_part_cons, IH.
    by destruct (PyStr.contains PyStr.backslash s).
Qed.

Lemma source_name_final_segment (s : string) :
  chatbot.source_name s = Spec.final_path_segment s.
Proof.
  unfold chatbot.source_name.
  destruct (PyStr.contains PyStr.slash s || PyStr.contains PyStr.backslash s) eqn:H.
  - apply last_parts_final_segment.
  - rewrite <- last_parts_final_segment.
    apply orb_false_iff in H as [Hs Hb].
    by rewrite (last_part_no_sep _ _ Hs), (last_part_no_sep _ _ Hb).
Qed.

Lemma final_path_segment_no_separator (s : string) :
  Spec.has_separator (Spec.final_path_segment s) = false.
Proof.
  induction s as [|a s IH]; simpl; [done|].
  destruct (Spec.has_separator s) eqn:Hs; [done|].
  destruct (Spec.is_separator a) eqn:Ha; [done|]. simpl. by rewrite Ha, Hs.
Qed.

Lemma final_path_segment_suffix (s : string) :
  if Spec.has_separator s
  then exists pre c, Spec.is_separator c = true /\
         s = pre ++ String c (Spec.final_path_segment s)
  else Spec.final_path_segment s = s.
Proof.
  induction s as [|a s IH]; simpl; [done|].
  destruct (Spec.has_separator s) eqn:Hs.
  - destruct IH as (pre & c & Hc & IH). rewrite orb_true_r.
    exists (String a pre), c. split; [done|].
    transitivity (String a (pre ++ String c (Spec.final_path_segment s)));
      [by f_equal | reflexivity].
  - rewrite orb_false_r. destruct (Spec.is_separator a) eqn:Ha; [|done].
    by exists "", a.
Qed.

(** ** Removing repeated sources *)

Lemma dict_setdefault_spec (k : string) (d : list string) :
  chatbot.dict_setdefault k d = if decide (k ∈ d) then d else app d [k].
Proof.
  induction d as [|k' d IH].
  - destruct (decide (k ∈ [])) as [H|_]; [by apply elem_of_nil in H | done].
  - simpl chatbot.dict_setdefault. destruct (String.eqb k' k) eqn:Hk.
    + apply String.eqb_eq in Hk as ->.
      destruct (decide (k ∈ k :: d)) as [_|H]; [done | set_solver].
    + apply String.eqb_neq in Hk. rewrite IH.
      destruct (decide (k ∈ d)), (decide (k ∈ k' :: d)); try done; set_solver.
Qed.

Lemma unseen_ext (seen seen' l : list string) :
  (forall x, x ∈ seen <-> x ∈ seen') -> unseen seen l = unseen seen' l.
Proof.
  revert seen seen'. induction l as [|x l IH]; intros seen seen' H; simpl; [done|].
  rewrite (IH (app seen [x]) (app seen' [x])) by set_solver.
  destruct (decide (x ∈ seen)), (decide (x ∈ seen')); try done; set_solver.
Qed.

Lemma dict_fromkeys_unseen (acc l : list string) :
  fold_left (fun d k => chatbot.dict_setdefault k d) l acc = app acc (unseen acc l).
Proof.
  revert acc. induction l as [|x l IH]; intros acc; simpl.
  - by rewrite app_nil_r.
  - rewrite IH, dict_setdefault_spec. destruct (decide (x ∈ acc)).
    + f_equal. apply unseen_ext. set_solver.
    + by rewrite <- app_assoc.
Qed.

Lemma first_occurrences_unseen (p l : list string) :
  omap (fun ix : nat * string =>
          if decide (ix.2 ∈ take ix.1 (app p l)) then None else Some ix.2)
       (imap (fun i x => (length p + i, x)%nat) l)
  = unseen p l.
Proof.
  revert p. induction l as [|x l IH]; intros p; [done|].
  rewrite imap_cons. cbn [omap list_omap unseen fst snd].
  rewrite Nat.add_0_r, take_app_length.
  destruct (decide (x ∈ p)); [|f_equal];
    rewrite <- (IH (app p [x])), <- app_assoc; simpl;
    f_equal; apply imap_ext; intros i y _; simpl;
    rewrite length_app; simpl; f_equal; lia.
Qed.

Lemma dict_fromkeys_first_occurrences (l : list string) :
  chatbot.dict_fromkeys l = Spec.first_occurrences l.
Proof.
  unfold chatbot.dict_fromkeys, Spec.first_occurrences.
  rewrite dict_fromkeys_unseen. simpl.
  rewrite <- (first_occurrences_unseen [] l). simpl.
  f_equal.
Qed.

(** ** [format_context] *)

Lemma format_loop (k : nat) (l : list (string * gmap string string))
    (parts names : list string) :
  fold_left chatbot.format_step (zip (seq k (length l)) l) (parts, names)
  = (app parts (imap (fun i c => chatbot.context_part (k + i) (chunk_source_name c) c.1) l),
     app names (map chunk_source_name l)).
Proof.
  revert k parts names. induction l as [|[doc meta] l IH]; intros k parts names.
  - simpl. by rewrite !app_nil_r.
  - rewrite imap_cons. simpl. rewrite IH. simpl.
    rewrite <- !app_assoc. simpl. rewrite Nat.add_0_r.
    do 3 f_equal. apply imap_ext. intros i c _. simpl. f_equal. lia.
Qed.

Lemma labeled_context_part (i : nat) (c : string * gmap string string) :
  Spec.labeled PyStr.nl (S i) c = chatbot.context_part i (chunk_source_name c) c.1.
Proof.
  unfold Spec.labeled, chatbot.context_part, Spec.shortSourceName, chunk_source_name.
  rewrite source_name_final_segment.
  by replace (Z.of_nat (S i)) with (Z.of_nat i + 1) by lia.
Qed.

(** ** The reference engine meets the contract *)





(** ** [search] *)

Section SearchFacts.
Context `{E : VectorEngine} (HE : EngineContract E).

(** What [search] asks the engine for is within the contract. *)
Lemma search_request_in_range (self : vector_store.VectorStore) (k : Z) :
  0 <= k ->
  0 <= Z.min k (coll_count (vector_store.collection self))
    <= coll_count (vector_store.collection self).
Proof.
  intros Hk. pose proof (count_nonneg E HE (vector_store.collection self)). lia.
Qed.

Lemma search_empty_row (self : vector_store.VectorStore) (q : string) (k : Z) :
  0 <= k ->
  vector_store.get_count self = 0 ->
  exists sr, vector_store.search self q k = Ok sr /\ index0 (documents sr) = Ok [].
Proof.
  intros Hk H0. unfold vector_store.search, vector_store.get_count in *.
  destruct (query_top_n E HE (vector_store.collection self) q
              (Z.min k (coll_count (vector_store.collection self))))
    as (rids & docs & metas & dists & Hq & _ & Hdocs & _);
    [by apply search_request_in_range|].
  rewrite H0, Z.min_r in Hdocs by done.
  destruct docs; [|simpl in Hdocs; lia].
  eexists. split; [exact Hq | reflexivity].
Qed.
End SearchFacts.

(** ** [generate_response] and [chat] *)

Section ChatFacts.
Context `{E : VectorEngine} `{P : chatbot.Subprocess}.

Lemma generate_response_run (w : chatbot.World) (q context : string) :
  chatbot.generate_response q context w =
    (Ok (answer_of (chatbot.subprocess_run (chatbot.spawned w) (ollama_argv w q context))),
     chatbot.mkWorld (chatbot.self w)
       (app (chatbot.spawned w) [ollama_argv w q context])).
Proof.
  unfold chatbot.generate_response, try_except, bind, get, chatbot.run, ollama_argv.
  simpl.
  destruct (chatbot.subprocess_run _ _) as [cp|e]; simpl.
  - destruct (chatbot.returncode cp =? 0); simpl; [|done].
    by destruct (String.eqb _ "").
  - by destruct (exn_cls e).
Qed.

Lemma chat_short_circuit (w : chatbot.World) (q : string) (sr : QueryResult) :
  chatbot.search_knowledge_base (chatbot.self w) q 3 = Ok sr ->
  index0 (documents sr) = Ok [] ->
  chatbot.chat q w = (Ok (chatbot.mkResponse chatbot.msg_not_found []), w).
Proof.
  intros Hs Hd. unfold chatbot.chat, bind, get, lift, ret.
  by rewrite Hs, Hd.
Qed.
End ChatFacts.

Section ChatClaims.
Context `{E : VectorEngine} `{P : chatbot.Subprocess}.

(** Every call of [generate_response] runs exactly one command. *)
Lemma generate_response_spawns (w : chatbot.World) (q context : string) :
  length (chatbot.spawned (chatbot.generate_response q context w).2)
  = S (length (chatbot.spawned w)).
Proof. rewrite generate_response_run. simpl. rewrite length_app. simpl. lia. Qed.


(** C10: when retrieval returns no documents, [chat] leaves the
    conversation history as it was. *)
Theorem chat_no_documents_history (w : chatbot.World) (q : string) (sr : QueryResult) :
  chatbot.search_knowledge_base (chatbot.self w) q 3 = Ok sr ->
  index0 (documents sr) = Ok [] ->
  chatbot.conversation_history (chatbot.self (chatbot.chat q w).2)
  = chatbot.conversation_history (chatbot.self w).
Proof.
  intros Hs Hd. unfold chatbot.chat, bind, get, lift, ret.
  by rewrite Hs, Hd.
Qed.

(** The history grows only by a turn whose question went to generation. *)
Lemma chat_history_grows (w : chatbot.World) (q : string) :
  let w' := (chatbot.chat q w).2 in
  w' = w \/
  exists a ss context,
    chatbot.conversation_history (chatbot.self w')
      = app (chatbot.conversation_history (chatbot.self w)) [chatbot.mkTurn q a ss] /\
    chatbot.spawned w' = app (chatbot.spawned w) [ollama_argv w q context].
Proof.
  unfold chatbot.chat, bind, get, lift, ret, modify. simpl.
  destruct (chatbot.search_knowledge_base _ q 3) as [sr|e]; [|by left].
  destruct (index0 (documents sr)) as [[|d ds]|e]; [by left| |by left].
  destruct (chatbot.format_context sr) as [cs|e]; [|by left].
  rewrite generate_response_run. simpl. right. eauto.
Qed.

(** C6: [generate_response] always returns a string: the error string
    with the process's standard error on a non-zero exit, the timed-out
    message on a timeout, the no-response message on empty output; the
    two messages differ. *)
Theorem generate_response_never_raises (w : chatbot.World) (q context : string) :
  exists (s : string) (w' : chatbot.World),
    chatbot.generate_response q context w = (Ok s, w') /\
    (forall cp,
       chatbot.subprocess_run (chatbot.spawned w) (ollama_argv w q context) = Ok cp ->
       chatbot.returncode cp <> 0 ->
       s = "Error generating response: " ++ chatbot.stderr cp) /\
    (forall e,
       chatbot.subprocess_run (chatbot.spawned w) (ollama_argv w q context) = Raise e ->
       exn_cls e = TimeoutExpired ->
       s = "Response timed out after 2 minutes. Please try a simpler question.") /\
    (forall cp,
       chatbot.subprocess_run (chatbot.spawned w) (ollama_argv w q context) = Ok cp ->
       chatbot.returncode cp = 0 ->
       chatbot.stdout cp = "" ->
       s = "No response generated. Please try again.") /\
    chatbot.msg_timed_out <> chatbot.msg_no_response.
Proof.
  rewrite generate_response_run. eexists _, _. split; [reflexivity|].
  repeat split.
  - intros cp -> Hrc. simpl. by apply Z.eqb_neq in Hrc as ->.
  - intros e -> He. simpl. by rewrite He.
  - intros cp -> Hrc Hout. simpl. by rewrite Hrc, Hout.
  - discriminate.
Qed.
(** Output that is blank once white space and [/bye] are removed counts
    as empty. *)
Lemma generate_response_blank_output (w : chatbot.World) (q context : string)
    (cp : chatbot.CompletedProcess) :
  chatbot.subprocess_run (chatbot.spawned w) (ollama_argv w q context) = Ok cp ->
  chatbot.returncode cp = 0 ->
  PyStr.strip (PyStr.remove_all "/bye" (PyStr.strip (chatbot.stdout cp))) = "" ->
  (chatbot.generate_response q context w).1 = Ok chatbot.msg_no_response.
Proof.
  intros Hrun Hrc Hblank. rewrite generate_response_run, Hrun. simpl.
  by rewrite Hrc, Hblank.
Qed.
End ChatClaims.

(** ** The claims on the index store *)



(** The guard of [search] is what keeps the request within the contract:
    asked for more than it holds, the reference engine raises. *)
Example query_beyond_count :
  @coll_query reference.ListEngine [] ["vacation policy"] 3
  = Raise (mkExn (OtherException "ValueError") "n_results out of range").
Proof. reflexivity. Qed.

(** With such an engine, [chat] on an empty store takes the short cut. *)
Lemma chat_empty_store `{E : VectorEngine} `{P : chatbot.Subprocess}
    (HE : EngineContract E) (w : chatbot.World) (q : string) :
  vector_store.get_count (chatbot.vector_store (chatbot.self w)) = 0 ->
  chatbot.chat q w = (Ok (chatbot.mkResponse chatbot.msg_not_found []), w).
Proof.
  intros H0.
  destruct (search_empty_row HE (chatbot.vector_store (chatbot.self w)) q 3)
    as (sr & Hs & Hd); [lia | done |].
  by apply (chat_short_circuit w q sr).
Qed.

Lemma doc_ids_lookup (chunks : list Document) (i : nat) :
  (i < length chunks)%nat ->
  vector_store.doc_ids chunks !! i = Some ("doc_" ++ PyStr.of_int (Z.of_nat i)).
Proof.
  intros Hi. unfold vector_store.doc_ids.
  rewrite list_lookup_fmap, lookup_seq_lt by done. done.
Qed.

(** C4 fails on the code: every call of [add_documents] numbers its chunks
    from zero, so the id [doc_0] is assigned in any two calls, and so is
    every [doc_i] below the length of both batches. *)
Theorem add_documents_ids_collide (batch1 batch2 : list Document) (i : nat) :
  (i < length batch1)%nat ->
  (i < length batch2)%nat ->
  exists id,
    vector_store.doc_ids batch1 !! i = Some id /\
    vector_store.doc_ids batch2 !! i = Some id.
Proof.
  intros H1 H2. exists ("doc_" ++ PyStr.of_int (Z.of_nat i)).
  split; by apply doc_ids_lookup.
Qed.

(** ** The claim on [get_stats] *)

(** C9 fails on the code: for no chunks [get_stats] returns three fields,
    all zero or empty, and no [total_characters], which it returns for any
    chunks. *)
Theorem get_stats_empty_fields :
  document_processor.get_stats [] !! "total_chunks" = Some (document_processor.SInt 0) /\
  document_processor.get_stats [] !! "avg_chunk_size" = Some (document_processor.SInt 0) /\
  document_processor.get_stats [] !! "sources" = Some (document_processor.SList []) /\
  document_processor.get_stats [] !! "total_characters" = None /\
  forall c cs, is_Some (document_processor.get_stats (c :: cs) !! "total_characters").
Proof.
  repeat split; try reflexivity.
  intros c cs. unfold document_processor.get_stats. by simplify_map_eq.
Qed.

(** ** The claim on [format_context] *)

(** C5, as the code has it: the context is the labeled renderings
    ["[Document i - <shortSourceName>]:"], a line break, the chunk text, in
    result order with [i] from 1 and joined by blank lines; the short name
    is the final path segment under both separators; the sources are the
    short names without repetitions, first occurrences kept in order. *)
Theorem format_context_spec (sr : QueryResult)
    (docs : list string) (metas : list (gmap string string)) :
  index0 (documents sr) = Ok docs ->
  index0 (metadatas sr) = Ok metas ->
  chatbot.format_context sr = Ok (Spec.formatContext PyStr.nl (zip docs metas)).
Proof.
  intros Hd Hm. unfold chatbot.format_context, chatbot.enumerate.
  rewrite Hd, Hm, format_loop. simpl.
  unfold Spec.formatContext. do 2 f_equal.
  - f_equal. apply imap_ext. intros i c _. symmetry. apply labeled_context_part.
  - rewrite dict_fromkeys_first_occurrences. f_equal.
    apply map_ext. intros c. unfold chunk_source_name, Spec.shortSourceName.
    apply source_name_final_segment.
Qed.

(** C5 as it is written, with a space between the label and the text,
    fails for a single chunk. *)
Lemma format_context_space_counterexample :
  index0 (documents fixtures.one_chunk) = Ok ["x"] /\
  index0 (metadatas fixtures.one_chunk) = Ok [ {[ "source" := "a.txt" ]} ] /\
  Spec.formatContext " " (zip ["x"] [ {[ "source" := "a.txt" ]} ])
    = ("[Document 1 - a.txt]: x", ["a.txt"]) /\
  chatbot.format_context fixtures.one_chunk
    <> Ok (Spec.formatContext " " (zip ["x"] [ {[ "source" := "a.txt" ]} ])).
Proof.
  repeat split; try reflexivity.
  vm_compute. intros H. discriminate H.
Qed.

Lemma format_context_spec_witness :
  chatbot.format_context fixtures.three_chunks
  = Ok (Spec.formatContext PyStr.nl
          (zip ["first"; "second"; "third"]
               [ {[ "source" := "data/documents/a.txt" ]};
                 {[ "source" := "C:\docs\b.txt" ]};
                 {[ "source" := "a.txt" ]} ])).
Proof. apply (format_context_spec fixtures.three_chunks); reflexivity. Defined.

Example format_context_three_chunks :
  exists context,
    chatbot.format_context fixtures.three_chunks = Ok (context, ["a.txt"; "b.txt"]).
Proof. eexists. vm_compute. reflexivity. Qed.

Example first_occurrences_example :
  Spec.first_occurrences ["a.txt"; "b.txt"; "a.txt"] = ["a.txt"; "b.txt"].
Proof. reflexivity. Qed.

(** ** The claims at concrete inputs *)


Lemma chat_no_documents_history_witness :
  chatbot.conversation_history
    (chatbot.self
       (chatbot.chat (P := fixtures.silent) "irrelevant nonsense query"
          (fixtures.world fixtures.silent reference.empty_store)).2)
  = [].
Proof.
  apply (chat_no_documents_history (P := fixtures.silent)
           (fixtures.world fixtures.silent reference.empty_store)
           "irrelevant nonsense query"
           (mkQueryResult [[]] [[]] [[]] [[]])); reflexivity.
Defined.



Lemma add_documents_ids_collide_witness :
  exists id,
    vector_store.doc_ids [fixtures.policy; fixtures.remote] !! 0%nat = Some id /\
    vector_store.doc_ids [fixtures.remote] !! 0%nat = Some id.
Proof.
  apply (add_documents_ids_collide
           [fixtures.policy; fixtures.remote] [fixtures.remote] 0); simpl; lia.
Defined.

(** Two calls of [add_documents] on the reference engine: [doc_0] twice. *)
Example add_documents_twice :
  map reference.entry_id (vector_store.collection fixtures.indexed_store)
    = ["doc_0"; "doc_1"] /\
  map reference.entry_id (vector_store.collection fixtures.reindexed_store)
    = ["doc_0"; "doc_1"; "doc_0"].
Proof. split; vm_compute; reflexivity. Qed.

Example generate_response_timeout :
  (chatbot.generate_response (P := fixtures.timing_out) "How many vacation days?" ""
     (fixtures.world fixtures.timing_out fixtures.indexed_store)).1
  = Ok "Response timed out after 2 minutes. Please try a simpler question.".
Proof. reflexivity. Qed.

Example generate_response_failure :
  (chatbot.generate_response (P := fixtures.failing) "How many vacation days?" ""
     (fixtures.world fixtures.failing fixtures.indexed_store)).1
  = Ok "Error generating response: model not found".
Proof. reflexivity. Qed.

Example generate_response_silent :
  (chatbot.generate_response (P := fixtures.silent) "How many vacation days?" ""
     (fixtures.world fixtures.silent fixtures.indexed_store)).1
  = Ok "No response generated. Please try again.".
Proof. reflexivity. Qed.

Example strip_bye :
  PyStr.strip (PyStr.remove_all "/bye" (PyStr.strip "  15 days. /bye ")) = "15 days.".
Proof. reflexivity. Qed.

Example split_path : PyStr.split "/" "a/b//c" = ["a"; "b"; ""; "c"].
Proof. reflexivity. Qed.

Lemma generate_response_never_raises_witness :
  exists (s : string) (w' : chatbot.World),
    chatbot.generate_response (P := fixtures.failing) "How many vacation days?" ""
      (fixtures.world fixtures.failing fixtures.indexed_store) = (Ok s, w') /\
    (forall cp,
       Ok (chatbot.mkCompletedProcess 1 "" "model not found") = Ok cp ->
       chatbot.returncode cp <> 0 ->
       s = "Error generating response: " ++ chatbot.stderr cp) /\
    (forall e,
       Ok (chatbot.mkCompletedProcess 1 "" "model not found") = Raise e ->
       exn_cls e = TimeoutExpired ->
       s = "Response timed out after 2 minutes. Please try a simpler question.") /\
    (forall cp,
       Ok (chatbot.mkCompletedProcess 1 "" "model not found") = Ok cp ->
       chatbot.returncode cp = 0 ->
       chatbot.stdout cp = "" ->
       s = "No response generated. Please try again.") /\
    chatbot.msg_timed_out <> chatbot.msg_no_response.
Proof.
  apply (generate_response_never_raises (P := fixtures.failing)
           (fixtures.world fixtures.failing fixtures.indexed_store)
           "How many vacation days?" "").
Defined.

(** * Further properties of the code *)

(** ** [chat], [clear_history] and the session log *)

Section ChatEffects.
Context `{E : VectorEngine} `{P : chatbot.Subprocess}.

(** What a call of [chat] does to the chatbot: nothing, or one command run
    and one turn appended. *)
Lemma chat_effect (w : chatbot.World) (q : string) :
  (chatbot.chat q w).2 = w \/
  exists a ss context,
    chatbot.chat q w =
      (Ok (chatbot.mkResponse a ss),
       chatbot.append_history (chatbot.mkTurn q a ss)
         (chatbot.mkWorld (chatbot.self w)
            (app (chatbot.spawned w) [ollama_argv w q context]))).
Proof.
  unfold chatbot.chat, bind, get, lift, ret, modify. simpl.
  destruct (chatbot.search_knowledge_base _ q 3) as [sr|e]; [|by left].
  destruct (index0 (documents sr)) as [[|d ds]|e]; [by left| |by left].
  destruct (chatbot.format_context sr) as [cs|e]; [|by left].
  rewrite generate_response_run. simpl. right. eauto.
Qed.

(** [chat] never touches the model name or the vector store, and what it
    does to the history and to the commands run is to append. *)
Theorem chat_keeps_store (w : chatbot.World) (q : string) :
  let w' := (chatbot.chat q w).2 in
  chatbot.model (chatbot.self w') = chatbot.model (chatbot.self w) /\
  chatbot.vector_store (chatbot.self w') = chatbot.vector_store (chatbot.self w) /\
  chatbot.conversation_history (chatbot.self w)
    `prefix_of` chatbot.conversation_history (chatbot.self w') /\
  chatbot.spawned w `prefix_of` chatbot.spawned w'.
Proof.
  destruct (chat_effect w q) as [Hw|(a & ss & context & Hw)]; simpl.
  - by rewrite Hw.
  - rewrite Hw. simpl. repeat split; by eexists.
Qed.

(** An exception out of [chat] leaves no trace: nothing was run and
    nothing was logged. *)
Theorem chat_raise_no_effect (w : chatbot.World) (q : string) (e : exn) :
  (chatbot.chat q w).1 = Raise e -> (chatbot.chat q w).2 = w.
Proof.
  intros Hr. destruct (chat_effect w q) as [Hw|(a & ss & context & Hw)]; [done|].
  by rewrite Hw in Hr.
Qed.

(** With documents retrieved, [chat] returns the generated answer with the
    sources of [format_context], runs one command, and logs exactly the
    question, answer and sources it returns; it raises nothing, however the
    process ends. *)
Theorem chat_with_documents (w : chatbot.World) (q : string) (sr : QueryResult)
    (d : string) (ds : list string) (metas : list (gmap string string)) :
  chatbot.search_knowledge_base (chatbot.self w) q 3 = Ok sr ->
  index0 (documents sr) = Ok (d :: ds) ->
  index0 (metadatas sr) = Ok metas ->
  exists context ss a,
    chatbot.format_context sr = Ok (context, ss) /\
    a = answer_of (chatbot.subprocess_run (chatbot.spawned w) (ollama_argv w q context)) /\
    chatbot.chat q w =
      (Ok (chatbot.mkResponse a ss),
       chatbot.mkWorld
         (chatbot.mkChatbot (chatbot.model (chatbot.self w))
            (chatbot.vector_store (chatbot.self w))
            (app (chatbot.conversation_history (chatbot.self w)) [chatbot.mkTurn q a ss]))
         (app (chatbot.spawned w) [ollama_argv w q context])).
Proof.
  intros Hs Hd Hm.
  destruct (chatbot.format_context sr) as [[context ss]|e] eqn:Hf.
  2:{ unfold chatbot.format_context in Hf. rewrite Hd, Hm in Hf.
      by destruct (fold_left _ _ _). }
  exists context, ss. eexists. split; [done|]. split; [reflexivity|].
  unfold chatbot.chat, bind, get, lift, ret, modify. simpl.
  rewrite Hs, Hd, Hf, generate_response_run. reflexivity.
Qed.

(** Over a whole session the model and the store stay as they were, and
    every logged turn was there at the start or answers a question asked
    in the session. *)
Theorem session_log_invariant (ops : list session_op) (w : chatbot.World) :
  let w' := session ops w in
  chatbot.model (chatbot.self w') = chatbot.model (chatbot.self w) /\
  chatbot.vector_store (chatbot.self w') = chatbot.vector_store (chatbot.self w) /\
  Forall (fun t => t ∈ chatbot.conversation_history (chatbot.self w) \/
                   Chat (chatbot.question t) ∈ ops)
         (chatbot.conversation_history (chatbot.self w')) /\
  (length (chatbot.conversation_history (chatbot.self w'))
   + length (chatbot.spawned w)
   <= length (chatbot.conversation_history (chatbot.self w))
      + length (chatbot.spawned w'))%nat.
Proof.
  revert w. induction ops as [|o ops IH]; intros w; simpl.
  - repeat split; [|lia]. apply Forall_forall. by left.
  - specialize (IH (session_step w o)). simpl in IH.
    destruct IH as (Hm & Hv & Hall & Hlen).
    assert (Hstep :
      chatbot.model (chatbot.self (session_step w o)) = chatbot.model (chatbot.self w) /\
      chatbot.vector_store (chatbot.self (session_step w o))
        = chatbot.vector_store (chatbot.self w) /\
      Forall (fun t => t ∈ chatbot.conversation_history (chatbot.self w) \/
                       Chat (chatbot.question t) = o)
             (chatbot.conversation_history (chatbot.self (session_step w o))) /\
      (length (chatbot.conversation_history (chatbot.self (session_step w o)))
       + length (chatbot.spawned w)
       <= length (chatbot.conversation_history (chatbot.self w))
          + length (chatbot.spawned (session_step w o)))%nat).
    { destruct o as [q|]; simpl.
      - destruct (chat_effect w q) as [Hw|(a & ss & context & Hw)]; rewrite Hw; simpl.
        + repeat split; [|lia]. apply Forall_forall. by left.
        + repeat split.
          * apply Forall_app. split; [apply Forall_forall; by left|].
            constructor; [by right | constructor].
          * rewrite !length_app. simpl. lia.
      - repeat split; [constructor | lia]. }
    destruct Hstep as (Hm1 & Hv1 & Hall1 & Hlen1).
    repeat split; [congruence | congruence | | lia].
    apply Forall_forall. intros t Ht.
    rewrite Forall_forall in Hall, Hall1.
    destruct (Hall t Ht) as [Hin|Hin].
    + destruct (Hall1 t Hin) as [?|<-]; [by left | right; by left].
    + right. by right.
Qed.
End ChatEffects.

(** ** The sources [format_context] returns *)

Lemma elem_of_unseen (p l : list string) (y : string) :
  y ∈ unseen p l <-> y ∈ l /\ y ∉ p.
Proof.
  revert p. induction l as [|x l IH]; intros p; simpl.
  - set_solver.
  - destruct (decide (x ∈ p)) as [Hx|Hx];
      rewrite ?elem_of_cons, IH, elem_of_app, list_elem_of_singleton;
      destruct (decide (y = x)) as [->|Hy]; tauto.
Qed.

Lemma NoDup_unseen (p l : list string) : NoDup (unseen p l).
Proof.
  revert p. induction l as [|x l IH]; intros p; simpl; [constructor|].
  destruct (decide (x ∈ p)); [apply IH|].
  constructor; [|apply IH]. rewrite elem_of_unseen. set_solver.
Qed.

Lemma length_unseen (p l : list string) : (length (unseen p l) <= length l)%nat.
Proof.
  revert p. induction l as [|x l IH]; intros p; simpl; [lia|].
  destruct (decide (x ∈ p)); simpl; specialize (IH (app p [x])); lia.
Qed.

(** The sources are pairwise distinct, they are exactly the short names of
    the chunks retrieved, none holds a path separator, and there are at
    most as many as chunks. *)
Theorem format_context_sources (sr : QueryResult)
    (docs : list string) (metas : list (gmap string string)) :
  index0 (documents sr) = Ok docs ->
  index0 (metadatas sr) = Ok metas ->
  exists context ss,
    chatbot.format_context sr = Ok (context, ss) /\
    NoDup ss /\
    (forall name, name ∈ ss <->
       exists c, c ∈ zip docs metas /\
         name = chatbot.source_name (default "Unknown" (c.2 !! "source"))) /\
    Forall (fun name => PyStr.contains PyStr.slash name = false /\
                        PyStr.contains PyStr.backslash name = false) ss /\
    (length ss <= length docs)%nat.
Proof.
  intros Hd Hm. unfold chatbot.format_context, chatbot.enumerate.
  rewrite Hd, Hm, format_loop. simpl.
  eexists _, _. split; [reflexivity|].
  unfold chatbot.dict_fromkeys. rewrite dict_fromkeys_unseen. simpl.
  assert (Hin : forall name,
    name ∈ unseen [] (map chunk_source_name (zip docs metas)) <->
    exists c, c ∈ zip docs metas /\
      name = chatbot.source_name (default "Unknown" (c.2 !! "source"))).
  { intros name. rewrite elem_of_unseen.
    change (map chunk_source_name (zip docs metas))
      with (chunk_source_name <$> zip docs metas).
    rewrite list_elem_of_fmap. unfold chunk_source_name.
    split.
    - intros [(c & -> & Hc) _]. eauto.
    - intros (c & Hc & ->). split; [eauto | apply not_elem_of_nil]. }
  split; [apply NoDup_unseen|]. split; [exact Hin|]. split.
  - apply Forall_forall. intros name Hname.
    apply Hin in Hname as (c & _ & ->).
    rewrite source_name_final_segment.
    pose proof (final_path_segment_no_separator (default "Unknown" (c.2 !! "source"))) as H.
    rewrite has_separator_contains in H. by apply orb_false_iff in H.
  - etransitivity; [apply length_unseen|].
    rewrite length_map, length_zip. lia.
Qed.

(** ** [source_name] on joined paths *)

Lemma has_separator_app (s t : string) :
  Spec.has_separator (s ++ t) = Spec.has_separator s || Spec.has_separator t.
Proof.
  induction s as [|a s IH]; [done|].
  change (String a s ++ t) with (String a (s ++ t)).
  simpl. by rewrite IH, orb_assoc.
Qed.

Lemma final_path_segment_app (pre name : string) (c : ascii) :
  Spec.is_separator c = true ->
  Spec.has_separator name = false ->
  Spec.final_path_segment (pre ++ String c name) = name.
Proof.
  intros Hc Hn. induction pre as [|a pre IH].
  - change ("" ++ String c name) with (String c name). simpl. by rewrite Hn, Hc.
  - change (String a pre ++ String c name) with (String a (pre ++ String c name)).
    simpl. rewrite has_separator_app. simpl. by rewrite Hc, orb_true_r.
Qed.

(** A file name without a separator is recovered from its path, whether
    the directory is joined with a slash or a back slash, and whatever
    separators the directory holds. *)
Theorem source_name_of_joined_path (dir name : string) :
  PyStr.contains PyStr.slash name = false ->
  PyStr.contains PyStr.backslash name = false ->
  chatbot.source_name (dir ++ "/" ++ name) = name /\
  chatbot.source_name (dir ++ "\" ++ name) = name.
Proof.
  intros Hs Hb.
  assert (Hn : Spec.has_separator name = false)
    by (by rewrite has_separator_contains, Hs, Hb).
  rewrite !source_name_final_segment.
  split; by apply final_path_segment_app.
Qed.

(** Taking the short name twice changes nothing. *)
Lemma source_name_idempotent (s : string) :
  chatbot.source_name (chatbot.source_name s) = chatbot.source_name s.
Proof.
  rewrite !source_name_final_segment.
  pose proof (final_path_segment_suffix (Spec.final_path_segment s)) as H.
  by rewrite final_path_segment_no_separator in H.
Qed.

(** ** The answer of [generate_response] *)

Lemma rstrip_head (a : ascii) (s : string) :
  PyStr.isspace a = false -> exists r, PyStr.rstrip (String a s) = String a r.
Proof.
  intros Ha. simpl. destruct (PyStr.rstrip s); rewrite ?Ha; eauto.
Qed.

Lemma rstrip_idempotent (s : string) : PyStr.rstrip (PyStr.rstrip s) = PyStr.rstrip s.
Proof.
  induction s as [|a s IH]; [done|]. simpl.
  destruct (PyStr.rstrip s) as [|b r] eqn:Hr.
  - destruct (PyStr.isspace a) eqn:Ha; [done|]. simpl. by rewrite Ha.
  - change (PyStr.rstrip (String a (String b r))
            = String a (String b r)).
    change (PyStr.rstrip (String a (String b r)))
      with (match PyStr.rstrip (String b r) with
            | "" => if PyStr.isspace a then "" else String a ""
            | String c r' => String a (String c r')
            end).
    by rewrite IH.
Qed.

Lemma lstrip_head (s : string) :
  match PyStr.lstrip s with
  | "" => True
  | String a _ => PyStr.isspace a = false
  end.
Proof.
  induction s as [|a s IH]; [done|]. simpl.
  destruct (PyStr.isspace a) eqn:Ha; [done|]. by simpl.
Qed.

Lemma strip_idempotent (s : string) : PyStr.strip (PyStr.strip s) = PyStr.strip s.
Proof.
  unfold PyStr.strip.
  pose proof (lstrip_head s) as Hl.
  destruct (PyStr.lstrip s) as [|a t]; [done|].
  destruct (rstrip_head a t Hl) as [r Hr]. rewrite Hr.
  change (PyStr.lstrip (String a r)) with (if PyStr.isspace a then PyStr.lstrip r else String a r).
  rewrite Hl, <- Hr. apply rstrip_idempotent.
Qed.

Section GenerationMore.
Context `{E : VectorEngine} `{P : chatbot.Subprocess}.

(** The string [generate_response] returns is never empty, and when the
    process exits with code 0 it carries no white space at either end. *)
Theorem generate_response_answer_clean (w : chatbot.World) (q context : string) :
  exists s,
    (chatbot.generate_response q context w).1 = Ok s /\
    s <> "" /\
    (forall cp,
       chatbot.subprocess_run (chatbot.spawned w) (ollama_argv w q context) = Ok cp ->
       chatbot.returncode cp = 0 ->
       PyStr.strip s = s).
Proof.
  rewrite generate_response_run. simpl. eexists. split; [reflexivity|].
  destruct (chatbot.subprocess_run _ _) as [cp|e]; simpl.
  - destruct (chatbot.returncode cp =? 0) eqn:Hrc.
    + destruct (String.eqb _ "") eqn:Hb.
      * split; [done|]. intros cp' _ _. reflexivity.
      * apply String.eqb_neq in Hb. split; [done|].
        intros cp' _ _. apply strip_idempotent.
    + split; [done|]. intros cp' [= <-] Hz. apply Z.eqb_neq in Hrc. done.
  - split; [by destruct (exn_cls e) | done].
Qed.

(** The chatbot is built exactly when [ollama list] completes with exit
    code 0; it then has the given model and store and an empty history,
    and that one command was run. *)
Theorem init_succeeds_iff (model : string) (store : vector_store.VectorStore)
    (log : list (list string)) :
  (forall bot log',
     chatbot.__init__ model (Ok store) log = (Ok bot, log') ->
     bot = chatbot.mkChatbot model store [] /\
     log' = app log [["ollama"; "list"]]) /\
  ((exists bot, (chatbot.__init__ model (Ok store) log).1 = Ok bot) <->
   (exists cp, chatbot.subprocess_run log ["ollama"; "list"] = Ok cp /\
               chatbot.returncode cp = 0)).
Proof.
  unfold chatbot.__init__, chatbot._check_ollama, chatbot.run_cmd,
    try_except, bind, lift, ret, raise. simpl.
  destruct (chatbot.subprocess_run log ["ollama"; "list"]) as [cp|e]; simpl.
  - destruct (chatbot.returncode cp =? 0) eqn:Hrc; simpl.
    + split; [by intros bot log' [= <- <-]|].
      apply Z.eqb_eq in Hrc. split; eauto.
    + apply Z.eqb_neq in Hrc. split; [done|].
      split; [by intros [bot ?] | by intros (cp' & [= <-] & ?)].
  - split.
    + intros bot log'. by destruct (exn_cls e).
    + split; [| by intros (cp & ? & _)].
      intros [bot Hbot]. by destruct (exn_cls e).
Qed.

(** When the check fails, the constructor raises [RuntimeError] if the
    command exits with another code, times out or is not found, and lets
    any other exception through. *)
Theorem init_failure (model : string) (store : vector_store.VectorStore)
    (log : list (list string)) :
  (forall cp,
     chatbot.subprocess_run log ["ollama"; "list"] = Ok cp ->
     chatbot.returncode cp <> 0 ->
     (chatbot.__init__ model (Ok store) log).1
     = Raise (mkExn (OtherException "RuntimeError") chatbot.msg_ollama_unavailable)) /\
  (forall e,
     chatbot.subprocess_run log ["ollama"; "list"] = Raise e ->
     (chatbot.__init__ model (Ok store) log).1 =
       match exn_cls e with
       | TimeoutExpired | FileNotFoundError =>
           Raise (mkExn (OtherException "RuntimeError") chatbot.msg_ollama_unavailable)
       | _ => Raise e
       end).
Proof.
  unfold chatbot.__init__, chatbot._check_ollama, chatbot.run_cmd,
    try_except, bind, lift, ret, raise. simpl.
  split.
  - intros cp -> Hrc. simpl. apply Z.eqb_neq in Hrc. by rewrite Hrc.
  - intros e ->. simpl. by destruct (exn_cls e).
Qed.
End GenerationMore.

(** ** [add_documents]: identifiers and batches *)

Lemma length_doc_ids (chunks : list Document) :
  length (vector_store.doc_ids chunks) = length chunks.
Proof. unfold vector_store.doc_ids. by rewrite length_map, length_seq. Qed.

(** Within one call the identifiers are pairwise distinct, one per chunk. *)
Theorem doc_ids_distinct (chunks : list Document) :
  NoDup (vector_store.doc_ids chunks) /\
  length (vector_store.doc_ids chunks) = length chunks.
Proof.
  unfold vector_store.doc_ids. split; [|by rewrite length_map, length_seq].
  apply (NoDup_fmap_2_strong _); [|apply NoDup_seq].
  intros i j _ _ Hij. apply (inj (String.append "doc_")) in Hij.
  apply (inj pretty) in Hij. lia.
Qed.

(** The rule of the [for] loop: [P] holds before the turn at each index
    and after the last, [Q] where a turn raises. *)
Lemma for_each_rule {St A} (P : nat -> St -> Prop) (Q : exn -> St -> Prop)
    (body : A -> M St unit) (l : list A) (k : nat) (s : St) :
  (forall j x s0, l !! j = Some x -> P (k + j)%nat s0 ->
     match body x s0 with
     | (Ok _, s1) => P (k + j + 1)%nat s1
     | (Raise e, s1) => Q e s1
     end) ->
  P k s ->
  match vector_store.for_each l body s with
  | (Ok _, s') => P (k + length l)%nat s'
  | (Raise e, s') => Q e s'
  end.
Proof.
  revert k s. induction l as [|x l IH]; intros k s Hbody HP; simpl.
  - by rewrite Nat.add_0_r.
  - unfold bind. pose proof (Hbody 0%nat x s eq_refl) as H0.
    rewrite Nat.add_0_r in H0. specialize (H0 HP).
    destruct (body x s) as [[[]|e] s1]; [|done].
    replace (k + S (length l))%nat with (k + 1 + length l)%nat by lia.
    apply IH; [|done].
    intros j y s0 Hj HPj.
    specialize (Hbody (S j) y s0 Hj).
    replace (k + S j)%nat with (k + 1 + j)%nat in Hbody by lia.
    by apply Hbody.
Qed.

Lemma range_step_lookup (n j : nat) :
  (j < (n + vector_store.batch_size - 1) / vector_store.batch_size)%nat ->
  vector_store.range_step n vector_store.batch_size !! j
  = Some (j * vector_store.batch_size)%nat.
Proof.
  intros Hj. unfold vector_store.range_step.
  by rewrite list_lookup_fmap, lookup_seq_lt.
Qed.

Lemma range_step_bounds (n : nat) :
  let m := ((n + vector_store.batch_size - 1) / vector_store.batch_size)%nat in
  length (vector_store.range_step n vector_store.batch_size) = m /\
  (n <= 100 * m)%nat /\
  (forall j, (j < m)%nat -> (100 * j < n)%nat).
Proof.
  intros m. unfold vector_store.range_step. rewrite length_map, length_seq.
  split; [done|].
  assert (Hd : (n + 99 = 100 * m + (n + 99) mod 100)%nat).
  { subst m. unfold vector_store.batch_size.
    replace (n + 100 - 1)%nat with (n + 99)%nat by lia.
    apply Nat.div_mod_eq. }
  pose proof (Nat.mod_upper_bound (n + 99) 100) as Hm.
  split; [lia|]. intros j Hj. lia.
Qed.

Lemma length_slice {A} (i j : nat) (l : list A) :
  length (vector_store.slice i j l) = Nat.min (j - i) (length l - i).
Proof. unfold vector_store.slice. by rewrite length_take, length_drop. Qed.

Section AddDocuments.
Context `{E : VectorEngine}.

Lemma add_batch_count (Hcount : counts_adds) (chunks : list Document)
    (vs0 s0 : vector_store.VectorStore) (j : nat) :
  (100 * j < length chunks)%nat ->
  vector_store.get_count s0 = vector_store.get_count vs0 + Z.of_nat (100 * j) ->
  match vector_store.add_batch (map page_content chunks) (map metadata chunks)
          (vector_store.doc_ids chunks) (j * vector_store.batch_size) s0 with
  | (Ok _, s1) =>
      vector_store.collection_name s1 = vector_store.collection_name s0 /\
      vector_store.persist_directory s1 = vector_store.persist_directory s0 /\
      vector_store.get_count s1
      = vector_store.get_count vs0
        + Z.of_nat (Nat.min (100 * (j + 1)) (length chunks))
  | (Raise e, s1) => s1 = s0
  end.
Proof.
  intros Hj Hc. unfold vector_store.add_batch, bind, get, lift, modify. simpl.
  destruct (coll_add _ _ _ _) as [c'|e] eqn:Hadd; [|done].
  simpl. split; [done|]. split; [done|].
  apply Hcount in Hadd.
  - unfold vector_store.get_count in *. simpl. rewrite Hadd, Hc.
    rewrite length_slice, length_map.
    rewrite length_doc_ids. unfold vector_store.batch_size. lia.
  - by rewrite !length_slice, !length_map, length_doc_ids.
  - by rewrite !length_slice, !length_map, length_doc_ids.
Qed.

Lemma add_loop_count (Hcount : counts_adds) (chunks : list Document)
    (vs : vector_store.VectorStore) :
  let out :=
    vector_store.for_each
      (vector_store.range_step (length chunks) vector_store.batch_size)
      (vector_store.add_batch (map page_content chunks) (map metadata chunks)
         (vector_store.doc_ids chunks)) vs in
  vector_store.collection_name out.2 = vector_store.collection_name vs /\
  vector_store.persist_directory out.2 = vector_store.persist_directory vs /\
  match out.1 with
  | Ok _ =>
      vector_store.get_count out.2
      = vector_store.get_count vs + Z.of_nat (length chunks)
  | Raise e =>
      exists j : nat,
        (100 * j < length chunks)%nat /\
        vector_store.get_count out.2 = vector_store.get_count vs + Z.of_nat (100 * j)
  end.
Proof.
  pose proof (range_step_bounds (length chunks)) as (Hlen & Hn & Hlt).
  set (n := length chunks) in *.
  set (P := fun (j : nat) (s : vector_store.VectorStore) =>
       vector_store.collection_name s = vector_store.collection_name vs /\
       vector_store.persist_directory s = vector_store.persist_directory vs /\
       vector_store.get_count s
       = vector_store.get_count vs + Z.of_nat (Nat.min (100 * j) n)).
  set (Q := fun (_ : exn) (s : vector_store.VectorStore) =>
       vector_store.collection_name s = vector_store.collection_name vs /\
       vector_store.persist_directory s = vector_store.persist_directory vs /\
       exists j : nat,
         (100 * j < n)%nat /\
         vector_store.get_count s = vector_store.get_count vs + Z.of_nat (100 * j)).
  pose proof (for_each_rule P Q
    (vector_store.add_batch (map page_content chunks) (map metadata chunks)
       (vector_store.doc_ids chunks))
    (vector_store.range_step n vector_store.batch_size) 0 vs) as Hloop.
  assert (Hstep : forall (j : nat) (x : nat) (s0 : vector_store.VectorStore),
    vector_store.range_step n vector_store.batch_size !! j = Some x ->
    P (0 + j)%nat s0 ->
    match vector_store.add_batch (map page_content chunks) (map metadata chunks)
            (vector_store.doc_ids chunks) x s0 with
    | (Ok _, s1) => P (0 + j + 1)%nat s1
    | (Raise e, s1) => Q e s1
    end).
  { intros j x s0 Hx (Hname & Hdir & Hc).
    assert (Hj : (j < length (vector_store.range_step n vector_store.batch_size))%nat)
      by (apply lookup_lt_is_Some; eauto).
    rewrite Hlen in Hj. rewrite range_step_lookup in Hx by done.
    injection Hx as <-. specialize (Hlt j Hj).
    assert (Hc' : vector_store.get_count s0
                  = vector_store.get_count vs + Z.of_nat (100 * j)).
    { rewrite Hc. f_equal. lia. }
    pose proof (add_batch_count Hcount chunks vs s0 j Hlt Hc') as Hb.
    destruct (vector_store.add_batch _ _ _ _ s0) as [[[]|e] s1].
    - destruct Hb as (Hn1 & Hd1 & Hc1). unfold P.
      split; [congruence|]. split; [congruence|].
      rewrite Hc1. subst n. do 2 f_equal.
    - subst s1. unfold Q. repeat split; eauto. }
  specialize (Hloop Hstep).
  assert (HP0 : P 0%nat vs).
  { repeat split. rewrite Nat.mul_0_r, Nat.min_0_l. simpl. lia. }
  specialize (Hloop HP0). cbn zeta.
  destruct (vector_store.for_each _ _ vs) as [[[]|e] vs']; simpl.
  - destruct Hloop as (Hname & Hdir & Hc). repeat split; try done.
    rewrite Hc, Hlen. f_equal. lia.
  - destruct Hloop as (Hname & Hdir & Hj). by repeat split.
Qed.

(** With an engine that counts what it is given, a call that returns has
    raised the count by the number of chunks; a call that raises has kept
    the batches before the failing one, a multiple of 100 entries short of
    the whole; the name and the directory of the store are kept. *)
Theorem add_documents_count (Hcount : counts_adds) (chunks : list Document)
    (vs : vector_store.VectorStore) :
  let out := vector_store.add_documents chunks vs in
  vector_store.collection_name out.2 = vector_store.collection_name vs /\
  vector_store.persist_directory out.2 = vector_store.persist_directory vs /\
  match out.1 with
  | Ok _ =>
      vector_store.get_count out.2
      = vector_store.get_count vs + Z.of_nat (length chunks)
  | Raise e =>
      exists j : nat,
        (100 * j < length chunks)%nat /\
        vector_store.get_count out.2 = vector_store.get_count vs + Z.of_nat (100 * j)
  end.
Proof.
  destruct chunks as [|c0 cs].
  - simpl. repeat split. lia.
  - unfold vector_store.add_documents. rewrite length_map.
    apply (add_loop_count Hcount (c0 :: cs) vs).
Qed.

Lemma slice_batch {A} (i : nat) (l : list A) :
  vector_store.slice i (Nat.min (i + vector_store.batch_size) (length l)) l
  = take 100 (drop i l).
Proof.
  unfold vector_store.slice, vector_store.batch_size.
  destruct (decide (i + 100 <= length l)%nat).
  - f_equal. lia.
  - rewrite !take_ge; [done | rewrite length_drop; lia | rewrite length_drop; lia].
Qed.

Section Parts.
Context (Hparts : adds_in_parts).
Context (c0 : Collection) (docs : list string) (metas : list (gmap string string))
        (ids : list string).
Context (Hm : length metas = length docs) (Hi : length ids = length docs).

Lemma add_prefix_raises (k : nat) (e : exn) :
  (0 < k)%nat -> docs <> [] ->
  coll_add c0 (take k docs) (take k metas) (take k ids) = Raise e ->
  coll_add c0 docs metas ids = Raise e.
Proof.
  intros Hk Hne Hr.
  destruct (decide (length docs <= k)%nat) as [Hle|Hgt].
  - by rewrite !take_ge in Hr by lia.
  - rewrite <- (take_drop k docs), <- (take_drop k metas), <- (take_drop k ids).
    rewrite Hparts, Hr; [done| | | |].
    + intros H0. apply (f_equal length) in H0. rewrite length_take in H0.
      destruct docs; simpl in *; [done|lia].
    + intros H0. apply (f_equal length) in H0. rewrite length_drop in H0.
      simpl in H0. lia.
    + rewrite !length_take. lia.
    + rewrite !length_take. lia.
Qed.

Lemma add_prefix_next (a : nat) :
  (0 < a < length docs)%nat ->
  coll_add c0 (take (a + 100) docs) (take (a + 100) metas) (take (a + 100) ids)
  = match coll_add c0 (take a docs) (take a metas) (take a ids) with
    | Ok c' => coll_add c' (take 100 (drop a docs)) (take 100 (drop a metas))
                 (take 100 (drop a ids))
    | Raise e => Raise e
    end.
Proof.
  intros Ha.
  rewrite <- !take_take_drop. apply Hparts.
  - intros H0. apply (f_equal length) in H0. rewrite length_take in H0.
    simpl in H0. lia.
  - intros H0. apply (f_equal length) in H0.
    rewrite length_take, length_drop in H0. cbn [length] in H0. lia.
  - rewrite !length_take. lia.
  - rewrite !length_take. lia.
Qed.

Lemma add_loop_as_one_add (vs : vector_store.VectorStore) :
  vector_store.collection vs = c0 -> docs <> [] ->
  let out :=
    vector_store.for_each
      (vector_store.range_step (length docs) vector_store.batch_size)
      (vector_store.add_batch docs metas ids) vs in
  match coll_add c0 docs metas ids with
  | Ok c' => out = (Ok tt, vector_store.set_collection c' vs)
  | Raise e => out.1 = Raise e
  end.
Proof.
  intros Hc0 Hne.
  pose proof (range_step_bounds (length docs)) as (Hlen & Hn & Hlt).
  assert (Hpos : (0 < length docs)%nat) by (destruct docs; simpl; [done|lia]).
  set (P := fun (j : nat) (s : vector_store.VectorStore) =>
    (j = 0%nat /\ s = vs) \/
    ((0 < j)%nat /\
     s = vector_store.set_collection (vector_store.collection s) vs /\
     coll_add c0 (take (100 * j) docs) (take (100 * j) metas) (take (100 * j) ids)
     = Ok (vector_store.collection s))).
  set (Q := fun (e : exn) (_ : vector_store.VectorStore) =>
    coll_add c0 docs metas ids = Raise e).
  pose proof (for_each_rule P Q (vector_store.add_batch docs metas ids)
    (vector_store.range_step (length docs) vector_store.batch_size) 0 vs) as Hloop.
  assert (Hstep : forall (j x : nat) (s0 : vector_store.VectorStore),
    vector_store.range_step (length docs) vector_store.batch_size !! j = Some x ->
    P (0 + j)%nat s0 ->
    match vector_store.add_batch docs metas ids x s0 with
    | (Ok _, s1) => P (0 + j + 1)%nat s1
    | (Raise e, s1) => Q e s1
    end).
  { intros j x s0 Hx HP.
    assert (Hj : (j < length (vector_store.range_step (length docs)
                                vector_store.batch_size))%nat)
      by (apply lookup_lt_is_Some; eauto).
    rewrite Hlen in Hj. rewrite range_step_lookup in Hx by done.
    injection Hx as <-. specialize (Hlt j Hj).
    unfold vector_store.add_batch, bind, get, lift, modify. cbn beta iota.
    set (i := (j * vector_store.batch_size)%nat).
    assert (Hi100 : i = (100 * j)%nat) by (unfold i, vector_store.batch_size; lia).
    assert (Hsd : vector_store.slice i
                    (Nat.min (i + vector_store.batch_size) (length docs)) docs
                  = take 100 (drop (100 * j) docs))
      by (rewrite <- Hi100; apply slice_batch).
    assert (Hsm : vector_store.slice i
                    (Nat.min (i + vector_store.batch_size) (length docs)) metas
                  = take 100 (drop (100 * j) metas))
      by (rewrite <- Hi100, <- Hm; apply slice_batch).
    assert (Hsi : vector_store.slice i
                    (Nat.min (i + vector_store.batch_size) (length docs)) ids
                  = take 100 (drop (100 * j) ids))
      by (rewrite <- Hi100, <- Hi; apply slice_batch).
    rewrite Hsd, Hsm, Hsi. clear Hsd Hsm Hsi Hi100 i.
    unfold P in HP. destruct HP as [[Hj0 ->]|(Hjpos & Hs0 & Hadd)].
    - simpl in Hj0. subst j. rewrite Nat.mul_0_r, !drop_0, Hc0.
      destruct (coll_add c0 (take 100 docs) (take 100 metas) (take 100 ids))
        as [c1|e] eqn:H1; cbn beta iota.
      + unfold P. right. split; [lia|]. split; [reflexivity|]. simpl. exact H1.
      + unfold Q. apply (add_prefix_raises 100 e); [lia | done | exact H1].
    - change (0 + j)%nat with j in *.
      pose proof (add_prefix_next (100 * j) ltac:(lia)) as Hnext.
      rewrite Hadd in Hnext.
      destruct (coll_add (vector_store.collection s0) _ _ _) as [c1|e] eqn:H1;
        cbn beta iota.
      + unfold P. right. split; [lia|]. split.
        * rewrite Hs0. reflexivity.
        * change (vector_store.collection (vector_store.set_collection c1 s0)) with c1.
          replace (100 * (j + 1))%nat with (100 * j + 100)%nat by lia.
          exact Hnext.
      + unfold Q. apply (add_prefix_raises (100 * j + 100) e); [lia|done|done]. }
  specialize (Hloop Hstep (or_introl (conj eq_refl eq_refl))). cbn zeta.
  destruct (vector_store.for_each _ _ vs) as [[[]|e] vs'].
  - destruct Hloop as [[Hz _]|(_ & Hvs' & Hadd)].
    + rewrite Hlen in Hz. specialize (Hlt 0%nat). lia.
    + rewrite Hlen, !take_ge in Hadd by lia.
      rewrite Hadd. by rewrite Hvs' at 1.
  - unfold Q in Hloop. by rewrite Hloop.
Qed.
End Parts.

(** With an engine for which an add can be made in parts, the batches of
    [add_documents] amount to one add of all the chunks: the same store
    when that add is accepted, the same exception when it is not. *)
Theorem add_documents_as_one_add (Hparts : adds_in_parts)
    (chunks : list Document) (vs : vector_store.VectorStore) :
  chunks <> [] ->
  match coll_add (vector_store.collection vs) (map page_content chunks)
          (map metadata chunks) (vector_store.doc_ids chunks) with
  | Ok c' =>
      vector_store.add_documents chunks vs
      = (Ok tt, vector_store.set_collection c' vs)
  | Raise e => (vector_store.add_documents chunks vs).1 = Raise e
  end.
Proof.
  intros Hne. destruct chunks as [|c0 cs]; [done|].
  unfold vector_store.add_documents.
  apply (add_loop_as_one_add Hparts).
  - by rewrite !length_map.
  - by rewrite length_doc_ids, length_map.
  - done.
  - done.
Qed.
End AddDocuments.

(** ** The reference engine meets the assumptions on [add] *)

Lemma reference_counts_adds : counts_adds (E := reference.ListEngine).
Proof.
  intros c c' docs metas ids Hd Hm [= <-].
  change (Z.of_nat (length (app c (zip (zip ids docs) metas)))
          = Z.of_nat (length c) + Z.of_nat (length ids)).
  rewrite length_app, !length_zip_with. lia.
Qed.

Lemma reference_adds_in_parts : adds_in_parts (E := reference.ListEngine).
Proof.
  intros c docs1 docs2 metas1 metas2 ids1 ids2 _ _ Hd Hm.
  change (@Ok (list reference.Entry)
            (app c (zip (zip (app ids1 ids2) (app docs1 docs2)) (app metas1 metas2)))
          = Ok (app (app c (zip (zip ids1 docs1) metas1)) (zip (zip ids2 docs2) metas2))).
  f_equal. rewrite <- app_assoc. f_equal.
  rewrite (zip_with_app pair ids1 ids2 docs1 docs2) by done.
  apply zip_with_app. rewrite length_zip_with. lia.
Qed.

(** ** The further properties at concrete inputs *)

Lemma chat_raise_no_effect_witness :
  (chatbot.chat (P := fixtures.silent) "How many vacation days do I get?"
     (unavailable.world fixtures.silent)).2
  = unavailable.world fixtures.silent.
Proof.
  apply (chat_raise_no_effect (P := fixtures.silent)
           (unavailable.world fixtures.silent)
           "How many vacation days do I get?" unavailable.connection_refused).
  reflexivity.
Defined.

Lemma chat_with_documents_witness :
  exists context ss a,
    chatbot.format_context
      (mkQueryResult [["doc_0"; "doc_1"]]
         [[page_content fixtures.policy; page_content fixtures.remote]]
         [[metadata fixtures.policy; metadata fixtures.remote]]
         [[inject_Z 12; inject_Z 15]])
    = Ok (context, ss) /\
    a = answer_of (Raise (mkExn TimeoutExpired "timed out after 120 seconds")) /\
    chatbot.chat (P := fixtures.timing_out) "How many vacation days do I get?"
      (fixtures.world fixtures.timing_out fixtures.indexed_store)
    = (Ok (chatbot.mkResponse a ss),
       chatbot.mkWorld
         (chatbot.mkChatbot "llama2" fixtures.indexed_store
            [chatbot.mkTurn "How many vacation days do I get?" a ss])
         [ollama_argv (fixtures.world fixtures.timing_out fixtures.indexed_store)
            "How many vacation days do I get?" context]).
Proof.
  apply (chat_with_documents (P := fixtures.timing_out)
           (fixtures.world fixtures.timing_out fixtures.indexed_store)
           "How many vacation days do I get?"
           (mkQueryResult [["doc_0"; "doc_1"]]
              [[page_content fixtures.policy; page_content fixtures.remote]]
              [[metadata fixtures.policy; metadata fixtures.remote]]
              [[inject_Z 12; inject_Z 15]])
           (page_content fixtures.policy) [page_content fixtures.remote]
           [metadata fixtures.policy; metadata fixtures.remote]);
    vm_compute; reflexivity.
Defined.

(** ** The order of [sorted] *)

Lemma ascii_compare_N (a b : ascii) :
  Ascii.compare a b = N.compare (N_of_ascii a) (N_of_ascii b).
Proof. reflexivity. Qed.

Lemma string_compare_refl (s : string) : String.compare s s = Eq.
Proof.
  induction s as [|a s IH]; simpl; [done|].
  by rewrite ascii_compare_N, N.compare_refl.
Qed.

Lemma string_leb_trans (s1 s2 s3 : string) :
  String.leb s1 s2 = true -> String.leb s2 s3 = true -> String.leb s1 s3 = true.
Proof.
  unfold String.leb. revert s2 s3.
  induction s1 as [|a s1 IH]; intros [|b s2] [|c s3]; simpl; try done.
  rewrite !ascii_compare_N.
  destruct (N.compare_spec (N_of_ascii a) (N_of_ascii b)) as [Hab|Hab|Hab];
    destruct (N.compare_spec (N_of_ascii b) (N_of_ascii c)) as [Hbc|Hbc|Hbc];
    destruct (N.compare_spec (N_of_ascii a) (N_of_ascii c)) as [Hac|Hac|Hac];
    try done; try lia.
  apply IH.
Qed.

#[local] Instance str_le_total : Total document_processor.str_le.
Proof. intros a b. apply String.leb_total. Qed.

#[local] Instance str_le_trans : Transitive document_processor.str_le.
Proof. intros a b c. apply string_leb_trans. Qed.

#[local] Instance str_le_antisym : AntiSymm (=) document_processor.str_le.
Proof. intros a b. apply String.leb_antisym. Qed.

Lemma sorted_permutation (names names' : list string) :
  names ≡ₚ names' -> document_processor.sorted names = document_processor.sorted names'.
Proof.
  intros Hp. unfold document_processor.sorted.
  apply (Sorted_unique document_processor.str_le); try apply Sorted_merge_sort, _.
  by rewrite !merge_sort_Permutation.
Qed.

(** ** [get_stats] *)

(** For at least one chunk, [get_stats] counts the chunks, sums their
    lengths, gives the floor of the average, and lists each source once,
    [unknown] standing for a chunk without one. *)
Theorem get_stats_nonempty (chunks : list Document) :
  chunks <> [] ->
  exists total avg srcs,
    document_processor.get_stats chunks !! "total_chunks"
      = Some (document_processor.SInt (Z.of_nat (length chunks))) /\
    document_processor.get_stats chunks !! "total_characters"
      = Some (document_processor.SInt total) /\
    document_processor.get_stats chunks !! "avg_chunk_size"
      = Some (document_processor.SInt avg) /\
    document_processor.get_stats chunks !! "sources"
      = Some (document_processor.SList srcs) /\
    total = foldr Z.add 0 (map (fun c => Z.of_nat (String.length (page_content c))) chunks) /\
    avg * Z.of_nat (length chunks) <= total < (avg + 1) * Z.of_nat (length chunks) /\
    NoDup srcs /\
    (forall src, src ∈ srcs <->
       exists c, c ∈ chunks /\ src = default "unknown" (metadata c !! "source")).
Proof.
  intros Hne. destruct chunks as [|c0 cs]; [done|].
  set (chunks := c0 :: cs).
  assert (Hpos : 0 < Z.of_nat (length chunks)) by (simpl; lia).
  unfold document_processor.get_stats. fold chunks.
  set (total := foldr Z.add 0
    (map (fun c => Z.of_nat (String.length (page_content c))) chunks)).
  exists total, (total / Z.of_nat (length chunks)),
    (document_processor.list_of_set
       (map (fun c => default "unknown" (metadata c !! "source")) chunks)).
  do 4 (split; [by simplify_map_eq|]).
  split; [reflexivity|]. split.
  - split.
    + rewrite Z.mul_comm. apply Z.mul_div_le. lia.
    + rewrite Z.mul_comm. apply Z.mul_succ_div_gt. lia.
  - unfold document_processor.list_of_set. split; [apply NoDup_elements|].
    intros src. rewrite elem_of_elements, elem_of_list_to_set.
    change (map ?f chunks) with (f <$> chunks). rewrite list_elem_of_fmap.
    split; intros (c & H1 & H2); eauto.
Qed.

(** ** File extensions *)

Lemma ext_from_no_dot (seen : bool) (s : string) :
  has_dot s = false -> document_processor.ext_from seen s = None.
Proof.
  revert seen. induction s as [|c s IH]; intros seen; simpl; [done|].
  intros H. apply orb_false_iff in H as [Hc Hs].
  by rewrite (IH _ Hs), Hc.
Qed.

Lemma ext_from_stem (seen : bool) (stem e : string) :
  seen || has_nondot stem = true ->
  has_dot e = false ->
  document_processor.ext_from seen (stem ++ String "." e) = Some (String "." e).
Proof.
  revert seen. induction stem as [|c stem IH]; intros seen Hs He.
  - change ("" ++ String "." e) with (String "." e). simpl.
    rewrite orb_false_r in Hs. subst seen.
    by rewrite (ext_from_no_dot _ e He).
  - change (String c stem ++ String "." e) with (String c (stem ++ String "." e)).
    simpl. rewrite IH; [done | | done].
    simpl in Hs. by rewrite <- orb_assoc.
Qed.

Lemma ext_from_seen_none (s : string) :
  document_processor.ext_from true s = None -> has_dot s = false.
Proof.
  induction s as [|c s IH]; simpl; [done|].
  destruct (document_processor.ext_from true s); [done|].
  destruct (Ascii.eqb c "."); simpl; [done|]. intros _. by apply IH.
Qed.

Lemma ext_from_inv (seen : bool) (s e : string) :
  document_processor.ext_from seen s = Some e ->
  exists stem rest,
    s = stem ++ e /\ e = String "." rest /\ has_dot rest = false /\
    seen || has_nondot stem = true.
Proof.
  revert seen. induction s as [|c s IH]; intros seen; simpl; [done|].
  destruct (document_processor.ext_from (seen || negb (Ascii.eqb c ".")) s)
    as [e'|] eqn:Hrec.
  - intros [= <-]. destruct (IH _ Hrec) as (stem & rest & -> & -> & Hrest & Hseen).
    exists (String c stem), rest. repeat split; try done.
    simpl. by rewrite orb_assoc.
  - destruct (Ascii.eqb c ".") eqn:Hc; simpl; [|done].
    destruct seen; [|done]. intros [= <-].
    apply Ascii.eqb_eq in Hc as ->.
    exists "", s. repeat split. by apply ext_from_seen_none.
Qed.

(** A file name has a supported extension exactly when it is a stem with a
    character other than a dot, followed by [.txt] or [.pdf] in lower
    case. *)
Theorem supported_extension_iff (filename : string) :
  document_processor.splitext_ext filename ∈ document_processor.supported_extensions
  <-> exists stem, has_nondot stem = true /\
        (filename = stem ++ ".txt" \/ filename = stem ++ ".pdf").
Proof.
  unfold document_processor.splitext_ext, document_processor.supported_extensions.
  split.
  - destruct (document_processor.ext_from false filename) as [e|] eqn:He; simpl.
    + destruct (ext_from_inv _ _ _ He) as (stem & rest & -> & _ & _ & Hstem).
      intros Hin. exists stem. split; [done|].
      apply elem_of_cons in Hin as [->|Hin]; [by left|].
      apply list_elem_of_singleton in Hin as ->. by right.
    + intros Hin. apply elem_of_cons in Hin as [?|Hin]; [done|].
      by apply list_elem_of_singleton in Hin.
  - intros (stem & Hstem & [->| ->]).
    + rewrite (ext_from_stem false stem "txt") by done. simpl. by left.
    + rewrite (ext_from_stem false stem "pdf") by done. simpl. right. by left.
Qed.

(** ** [load_documents] *)

Section LoadFacts.
Context `{FS : document_processor.FileSystem}.

Lemma load_file_app (dir : string) (docs : list Document) (f : string) :
  document_processor.load_file dir docs f
  = app docs (document_processor.load_file dir [] f).
Proof.
  unfold document_processor.load_file.
  destruct (document_processor.isdir _); [by rewrite app_nil_r|].
  destruct (negb _); [by rewrite app_nil_r|].
  destruct (if String.eqb _ ".txt" then _ else _); [done | by rewrite app_nil_r].
Qed.

Lemma elem_of_load_file (dir f : string) (d : Document) :
  d ∈ document_processor.load_file dir [] f <->
  exists l, loads dir f l /\ d ∈ l.
Proof.
  unfold document_processor.load_file, loads.
  destruct (document_processor.isdir _) eqn:Hdir.
  { split; [by intros ?%elem_of_nil | by intros (l & [? _] & _)]. }
  destruct (bool_decide _) eqn:Hsup; simpl.
  - apply bool_decide_eq_true in Hsup.
    unfold document_processor.supported_extensions in Hsup.
    apply elem_of_cons in Hsup as [Hext|Hext].
    + rewrite Hext. simpl.
      destruct (document_processor.load_text _) as [l|e].
      * split; [intros Hd; exists l; split; [split; [done|by left]|done]|].
        intros (l' & [_ [[_ [= <-]]|[? _]]] & Hd); done.
      * split; [by intros ?%elem_of_nil|].
        intros (l' & [_ [[_ ?]|[? _]]] & Hd); done.
    + apply list_elem_of_singleton in Hext. rewrite Hext. simpl.
      destruct (document_processor.load_pdf _) as [l|e].
      * split; [intros Hd; exists l; split; [split; [done|by right]|done]|].
        intros (l' & [_ [[? _]|[_ [= <-]]]] & Hd); done.
      * split; [by intros ?%elem_of_nil|].
        intros (l' & [_ [[? _]|[_ ?]]] & Hd); done.
  - apply bool_decide_eq_false in Hsup.
    split; [by intros ?%elem_of_nil|].
    intros (l & [_ [[Hext _]|[Hext _]]] & _); exfalso; apply Hsup; rewrite Hext;
      unfold document_processor.supported_extensions; set_solver.
Qed.

Lemma elem_of_load_loop (dir : string) (names : list string)
    (acc : list Document) (d : Document) :
  d ∈ fold_left (document_processor.load_file dir) names acc <->
  d ∈ acc \/ exists f l, f ∈ names /\ loads dir f l /\ d ∈ l.
Proof.
  revert acc. induction names as [|f names IH]; intros acc; simpl.
  - split; [by left|]. intros [?|(f & l & Hf & _)]; [done|].
    by apply elem_of_nil in Hf.
  - rewrite IH, load_file_app, elem_of_app, elem_of_load_file. split.
    + intros [[?|(l & Hl & Hd)]|(f' & l & Hf & Hl & Hd)].
      * by left.
      * right. exists f, l. split; [by left|done].
      * right. exists f', l. split; [by right|done].
    + intros [?|(f' & l & Hf & Hl & Hd)]; [by left; left|].
      apply elem_of_cons in Hf as [->|Hf].
      * left. right. eauto.
      * right. eauto.
Qed.

(** From a directory that exists and can be listed, [load_documents]
    returns exactly the documents of the regular files with a supported
    extension whose loader succeeds: a file that fails to load is left out
    and the others are kept. *)
Theorem load_documents_contents (dir : string) (names : list string) :
  document_processor.path_exists dir = true ->
  document_processor.listdir dir = Ok names ->
  exists docs,
    document_processor.load_documents dir = Ok docs /\
    forall d, d ∈ docs <-> exists f l, f ∈ names /\ loads dir f l /\ d ∈ l.
Proof.
  intros He Hl. unfold document_processor.load_documents. rewrite He, Hl. simpl.
  eexists. split; [reflexivity|]. intros d.
  rewrite elem_of_load_loop. split.
  - intros [?%elem_of_nil|(f & l & Hf & Hloads & Hd)]; [done|].
    exists f, l. split; [|done].
    by rewrite <- (merge_sort_Permutation document_processor.str_le names).
  - intros (f & l & Hf & Hloads & Hd). right. exists f, l. split; [|done].
    unfold document_processor.sorted.
    by rewrite (merge_sort_Permutation document_processor.str_le names).
Qed.

(** [load_documents] raises in two cases only: [FileNotFoundError] for a
    directory that does not exist, and whatever [os.listdir] raises; a
    failure of a loader never comes out. *)
Theorem load_documents_raises_iff (dir : string) (e : exn) :
  document_processor.load_documents dir = Raise e <->
  (document_processor.path_exists dir = false /\
   e = mkExn FileNotFoundError ("Directory not found: " ++ dir)) \/
  (document_processor.path_exists dir = true /\
   document_processor.listdir dir = Raise e).
Proof.
  unfold document_processor.load_documents.
  destruct (document_processor.path_exists dir); simpl.
  - destruct (document_processor.listdir dir) as [names|e'].
    + split; [done|]. by intros [[? _]|[_ ?]].
    + split; [intros [= ->]; by right|]. intros [[? _]|[_ [= ->]]]; done.
  - split; [intros [= <-]; by left|]. intros [[_ ->]|[? _]]; done.
Qed.
End LoadFacts.

(** The result of [load_documents] does not depend on the order in which
    the operating system lists the directory. *)
Theorem load_documents_listing_order (FS : document_processor.FileSystem)
    (dir : string) (names names' : list string) :
  @document_processor.listdir FS dir = Ok names ->
  names ≡ₚ names' ->
  @document_processor.load_documents (relisted FS (fun _ => Ok names')) dir
  = @document_processor.load_documents FS dir.
Proof.
  intros Hl Hp. unfold document_processor.load_documents. simpl.
  rewrite Hl. destruct (@document_processor.path_exists FS dir); simpl; [|done].
  by rewrite (sorted_permutation names names').
Qed.

(** ** [clear] and a rebuilt index *)

Section ClearFacts.
Context `{E : VectorEngine} `{C : !vector_store.VectorClient}.

Lemma clear_cases (vs : vector_store.VectorStore) :
  (exists e, vector_store.clear vs = (Raise e, vs)) \/
  (exists c,
     vector_store.client_create_collection (vector_store.collection_name vs)
       vector_store.cosine = Ok c /\
     vector_store.clear vs = (Ok tt, vector_store.set_collection c vs)).
Proof.
  unfold vector_store.clear, bind, get, lift, modify. simpl.
  destruct (vector_store.client_delete_collection _) as [[]|e]; [|left; eauto].
  destruct (vector_store.client_create_collection _ _) as [c|e]; [|left; eauto].
  right. eauto.
Qed.

(** [clear] either raises and leaves the store object as it was, or
    returns with a collection that holds nothing; the name and the
    directory are kept. *)
Theorem clear_outcome (Hempty : creates_empty) (vs : vector_store.VectorStore) :
  let out := vector_store.clear vs in
  vector_store.collection_name out.2 = vector_store.collection_name vs /\
  vector_store.persist_directory out.2 = vector_store.persist_directory vs /\
  match out.1 with
  | Ok _ => vector_store.get_count out.2 = 0
  | Raise _ => out.2 = vs
  end.
Proof.
  destruct (clear_cases vs) as [[e ->]|(c & Hc & ->)]; simpl; [done|].
  repeat split. by apply (Hempty _ _ _ Hc).
Qed.

Lemma add_documents_count_ok (Hcount : counts_adds) (chunks : list Document)
    (vs vs' : vector_store.VectorStore) :
  vector_store.add_documents chunks vs = (Ok tt, vs') ->
  vector_store.get_count vs' = vector_store.get_count vs + Z.of_nat (length chunks).
Proof.
  destruct chunks as [|c0 cs].
  - intros [= <-]. simpl. lia.
  - unfold vector_store.add_documents. rewrite length_map. intros Hadd.
    pose proof (add_loop_count Hcount (c0 :: cs) vs) as H.
    rewrite Hadd in H. by destruct H as (_ & _ & H).
Qed.

Lemma add_documents_count_ge (Hcount : counts_adds) (chunks : list Document)
    (vs : vector_store.VectorStore) :
  vector_store.get_count vs
  <= vector_store.get_count (vector_store.add_documents chunks vs).2.
Proof.
  destruct chunks as [|c0 cs]; [simpl; lia|].
  unfold vector_store.add_documents. rewrite length_map.
  pose proof (add_loop_count Hcount (c0 :: cs) vs) as (_ & _ & H).
  destruct (vector_store.for_each _ _ vs) as [[[]|e] vs']; simpl in *.
  - lia.
  - destruct H as (j & _ & ->). lia.
Qed.

(** A rebuilt index: after [clear] and [add_documents] have both returned,
    the count is the number of chunks added. *)
Theorem rebuilt_index_count (Hempty : creates_empty) (Hcount : counts_adds)
    (chunks : list Document) (vs vs1 vs2 : vector_store.VectorStore) :
  vector_store.clear vs = (Ok tt, vs1) ->
  vector_store.add_documents chunks vs1 = (Ok tt, vs2) ->
  vector_store.get_count vs2 = Z.of_nat (length chunks).
Proof.
  intros Hclear Hadd.
  destruct (clear_cases vs) as [[e He]|(c & Hc & Hc')]; [congruence|].
  rewrite Hc' in Hclear. injection Hclear as <-.
  rewrite (add_documents_count_ok Hcount chunks _ vs2 Hadd).
  unfold vector_store.get_count. simpl. rewrite (Hempty _ _ _ Hc). lia.
Qed.
End ClearFacts.

(** ** The confirmation of the indexing script *)

Lemma lower_char_y (c : ascii) :
  index_documents.lower_char c = "y"%char -> c = "y"%char \/ c = "Y"%char.
Proof.
  destruct c as [[] [] [] [] [] [] [] []]; vm_compute; intros H;
    try discriminate H; auto.
Qed.

Lemma lower_consent (response : string) :
  String.eqb (index_documents.lower response) "y" = true ->
  response = "y" \/ response = "Y".
Proof.
  intros H. apply String.eqb_eq in H.
  destruct response as [|c [|c' s]]; simpl in H; try done.
  injection H as H. destruct (lower_char_y c H) as [-> | ->]; auto.
Qed.

(** The reply that clears the index is [y] in either case, and no other. *)
Theorem lower_is_y (response : string) :
  String.eqb (index_documents.lower response) "y" = true
  <-> response = "y" \/ response = "Y".
Proof.
  split.
  - intros H. apply String.eqb_eq in H.
    destruct response as [|c [|c' s]]; simpl in H; try done.
    injection H as H. destruct (lower_char_y c H) as [-> | ->]; auto.
  - by intros [-> | ->].
Qed.

(** ** [index_documents] *)

Section ScriptFacts.
Context `{E : VectorEngine} `{C : !vector_store.VectorClient}
        `{FS : document_processor.FileSystem}
        `{TS : document_processor.TextSplitter}.

Lemma index_documents_steps (path : string) (force : bool) (r : index_documents.Run) :
  index_documents.index_documents path force r
  = (clear_decision force ;;; load_and_index path)%py r.
Proof.
  unfold index_documents.index_documents, clear_decision, bind, get. reflexivity.
Qed.

Lemma on_store_clear_cases (r : index_documents.Run) :
  (exists e, index_documents.on_store vector_store.clear r = (Raise e, r)) \/
  (exists vs1,
     vector_store.clear (index_documents.store r) = (Ok tt, vs1) /\
     index_documents.on_store vector_store.clear r
     = (Ok tt, index_documents.mkRun vs1 (index_documents.stdin r))).
Proof.
  unfold index_documents.on_store.
  destruct (clear_cases (index_documents.store r)) as [[e ->]|(c & _ & ->)].
  - left. exists e. by destruct r.
  - right. eauto.
Qed.

(** What the decision step does: nothing, a line read, a clear, or both;
    a line is read only without the force flag and on a store that holds
    something, and a clear is made only with the flag or on the reply [y]
    or [Y]. *)
Lemma clear_decision_cases (force : bool) (r : index_documents.Run) :
  let out := clear_decision force r in
  (index_documents.stdin out.2 = index_documents.stdin r \/
   (force = false /\ 0 < vector_store.get_count (index_documents.store r) /\
    exists line, index_documents.stdin r = line :: index_documents.stdin out.2)) /\
  (index_documents.store out.2 = index_documents.store r \/
   (out.1 = Ok tt /\
    vector_store.clear (index_documents.store r) = (Ok tt, index_documents.store out.2) /\
    (force = true \/
     exists line rest, index_documents.stdin r = line :: rest /\
                       (line = "y" \/ line = "Y")))).
Proof.
  unfold clear_decision, bind, get. simpl.
  destruct (0 <? vector_store.get_count (index_documents.store r)) eqn:Hpos;
    [|by split; left].
  apply Z.ltb_lt in Hpos. destruct force.
  - destruct (on_store_clear_cases r) as [[e ->]|(vs1 & Hc & ->)]; simpl.
    + by split; left.
    + split; [by left|]. right. by repeat split; auto.
  - unfold index_documents.input at 1.
    destruct r as [vs [|line rest]]; simpl; [by split; left|].
    destruct (String.eqb (index_documents.lower line) "y") eqn:Hy.
    + apply lower_consent in Hy.
      destruct (on_store_clear_cases (index_documents.mkRun vs rest))
        as [[e ->]|(vs1 & Hc & ->)]; simpl in *.
      * split; [right; eauto|by left].
      * split; [right; eauto|]. right. repeat split; eauto.
    + simpl. split; [right; eauto|by left].
Qed.

(** What steps 2 to 6 do to the run: nothing, or one [add_documents] of
    the chunks of the documents loaded; [True] comes only after that add
    has returned. *)
Lemma load_and_index_cases (path : string) (r : index_documents.Run) :
  let out := load_and_index path r in
  (out.2 = r /\ out.1 <> Ok true) \/
  (exists docs,
     document_processor.load_documents path = Ok docs /\ docs <> [] /\
     script_chunks docs <> [] /\
     out.2 = index_documents.mkRun
               (vector_store.add_documents (script_chunks docs)
                  (index_documents.store r)).2
               (index_documents.stdin r) /\
     (out.1 = Ok true ->
      (vector_store.add_documents (script_chunks docs) (index_documents.store r)).1
      = Ok tt)).
Proof.
  unfold load_and_index.
  destruct (document_processor.load_documents path) as [[|d docs]|e]; cbv zeta.
  - by left.
  - destruct (script_chunks (d :: docs)) as [|c0 cs] eqn:Hchunks; [by left|].
    right. exists (d :: docs). rewrite Hchunks.
    repeat (split; [done|]).
    unfold bind, get, lift, index_documents.on_store.
    destruct (vector_store.add_documents (c0 :: cs) (index_documents.store r))
      as [[[]|e] vs1]; cbn [fst snd]; [|done].
    destruct (vector_store.search _ _ _) as [sr|e]; cbn [fst snd]; [|done].
    by destruct (index0 (documents sr)).
  - left. by destruct (exn_cls e).
Qed.

(** The script reads at most one line from the standard input, and none
    with the force flag or when the store holds nothing. *)
Theorem index_documents_reads_one_line (path : string) (force : bool)
    (r : index_documents.Run) :
  let r' := (index_documents.index_documents path force r).2 in
  index_documents.stdin r' = index_documents.stdin r \/
  (force = false /\ 0 < vector_store.get_count (index_documents.store r) /\
   exists line, index_documents.stdin r = line :: index_documents.stdin r').
Proof.
  rewrite index_documents_steps. unfold bind.
  pose proof (clear_decision_cases force r) as [Hin _].
  destruct (clear_decision force r) as [[[]|e] r1]; simpl in *.
  - assert (Hsame : index_documents.stdin (load_and_index path r1).2
                    = index_documents.stdin r1).
    { destruct (load_and_index_cases path r1) as [[-> _]|(docs & _ & _ & _ & -> & _)];
        done. }
    rewrite Hsame. destruct Hin as [?|(Hf & Hpos & line & Hline)]; [by left|].
    right. eauto.
  - destruct Hin as [?|(Hf & Hpos & line & Hline)]; [by left|]. right. eauto.
Qed.

(** Without the force flag and without the reply [y] or [Y], nothing is
    removed from the index: with an engine that counts what it is given,
    the count at the end is at least the count at the start. *)
Theorem index_documents_keeps_documents (Hcount : counts_adds) (path : string)
    (r : index_documents.Run) :
  (forall line rest, index_documents.stdin r = line :: rest ->
                     line <> "y" /\ line <> "Y") ->
  vector_store.get_count (index_documents.store r)
  <= vector_store.get_count
       (index_documents.store (index_documents.index_documents path false r).2).
Proof.
  intros Hreply. rewrite index_documents_steps. unfold bind.
  pose proof (clear_decision_cases false r) as [_ Hstore].
  assert (Hkept : index_documents.store (clear_decision false r).2
                  = index_documents.store r).
  { destruct Hstore as [?|(_ & _ & [?|(line & rest & Hline & Hy)])]; [done|done|].
    destruct (Hreply line rest Hline). by destruct Hy. }
  destruct (clear_decision false r) as [[[]|e] r1]; simpl in *; [|by rewrite Hkept].
  rewrite <- Hkept.
  destruct (load_and_index_cases path r1) as [[-> _]|(docs & _ & _ & _ & -> & _)];
    [done|]. simpl.
  by apply add_documents_count_ge.
Qed.

(** A forced reindex of a directory that does not exist reports failure
    after the index has been cleared: the store is left empty. *)
Theorem index_documents_forced_on_missing_directory (Hempty : creates_empty)
    (path : string) (r : index_documents.Run) (vs1 : vector_store.VectorStore) :
  0 < vector_store.get_count (index_documents.store r) ->
  document_processor.path_exists path = false ->
  vector_store.clear (index_documents.store r) = (Ok tt, vs1) ->
  index_documents.index_documents path true r
    = (Ok false, index_documents.mkRun vs1 (index_documents.stdin r)) /\
  vector_store.get_count vs1 = 0.
Proof.
  intros Hpos Hmiss Hclear. split.
  - unfold index_documents.index_documents, bind, get. simpl.
    apply Z.ltb_lt in Hpos. rewrite Hpos.
    unfold index_documents.on_store at 1. rewrite Hclear. simpl.
    unfold document_processor.load_documents. by rewrite Hmiss.
  - destruct (clear_cases (index_documents.store r)) as [[e He]|(c & Hc & Hc')];
      [congruence|].
    rewrite Hc' in Hclear. injection Hclear as <-.
    exact (Hempty _ _ _ Hc).
Qed.

(** [True] is returned only when documents were loaded, gave chunks, and
    all the chunks were added, to the store as it was or as [clear] left
    it. *)
Theorem index_documents_success (path : string) (force : bool)
    (r r' : index_documents.Run) :
  index_documents.index_documents path force r = (Ok true, r') ->
  exists docs before,
    document_processor.load_documents path = Ok docs /\ docs <> [] /\
    script_chunks docs <> [] /\
    (before = index_documents.store r \/
     vector_store.clear (index_documents.store r) = (Ok tt, before)) /\
    vector_store.add_documents (script_chunks docs) before
    = (Ok tt, index_documents.store r').
Proof.
  rewrite index_documents_steps. unfold bind.
  pose proof (clear_decision_cases force r) as [_ Hstore].
  destruct (clear_decision force r) as [[[]|e] r1]; simpl in *; [|done].
  intros Hout.
  destruct (load_and_index_cases path r1) as [[_ Hne]|(docs & Hl & Hd & Hc & Hr' & Hok)].
  { by rewrite Hout in Hne. }
  rewrite Hout in Hr', Hok. simpl in *. specialize (Hok eq_refl).
  exists docs, (index_documents.store r1). repeat (split; [done|]). split.
  - destruct Hstore as [->|(_ & Hclear & _)]; [by left | by right].
  - subst r'. simpl.
    by destruct (vector_store.add_documents _ _) as [res vs2]; simpl in *; subst.
Qed.
End ScriptFacts.

(** ** [app.py]: one prompt *)

Section PageFacts.
Context `{E : VectorEngine} `{P : chatbot.Subprocess}.

(** A prompt adds the user's message and one reply of the assistant and
    raises nothing: the reply carries the answer and the sources of [chat],
    or the error text with no sources when [chat] raises. *)
Theorem handle_prompt_messages (s : app.Session)
    (user_input chat_input : option string) (c : ascii) (p : string) :
  app.first_truthy user_input chat_input = Some (String c p) ->
  let out := chatbot.chat (String c p) (app.bot s) in
  exists reply,
    app.handle_prompt user_input chat_input s
    = (Ok tt,
       app.mkSession out.2
         (app (app.messages s) [app.mkMessage "user" (String c p) None; reply])) /\
    app.role reply = "assistant" /\
    match out.1 with
    | Ok response =>
        app.content reply = chatbot.answer response /\
        app.msg_sources reply = Some (chatbot.sources response)
    | Raise e =>
        app.content reply = app.error_prefix ++ exn_str e /\
        app.msg_sources reply = Some []
    end.
Proof.
  intros Hp. unfold app.handle_prompt. rewrite Hp.
  unfold bind, modify, try_except, app.on_bot, app.append_message. simpl.
  destruct (chatbot.chat (String c p) (app.bot s)) as [[response|e] w]; simpl.
  - eexists. split; [by rewrite <- app_assoc|]. done.
  - eexists. split; [by rewrite <- app_assoc|]. done.
Qed.

(** Without a prompt, or with an empty one, nothing happens. *)
Lemma handle_prompt_nothing (s : app.Session) (user_input chat_input : option string) :
  app.first_truthy user_input chat_input = None \/
  app.first_truthy user_input chat_input = Some "" ->
  app.handle_prompt user_input chat_input s = (Ok tt, s).
Proof. unfold app.handle_prompt. by intros [-> | ->]. Qed.
End PageFacts.

(** ** The client of the reference engine *)

Lemma disk_creates_empty :
  @creates_empty reference.ListEngine disk.ListClient.
Proof. by intros name meta c [= <-]. Qed.

Lemma format_context_sources_witness :
  exists context ss,
    chatbot.format_context fixtures.three_chunks = Ok (context, ss) /\
    NoDup ss /\
    (forall name, name ∈ ss <->
       exists c, c ∈ zip ["first"; "second"; "third"]
                         [ ({[ "source" := "data/documents/a.txt" ]} : gmap string string);
                           {[ "source" := "C:\docs\b.txt" ]};
                           {[ "source" := "a.txt" ]} ] /\
         name = chatbot.source_name (default "Unknown" (c.2 !! "source"))) /\
    Forall (fun name => PyStr.contains PyStr.slash name = false /\
                        PyStr.contains PyStr.backslash name = false) ss /\
    (length ss <= 3)%nat.
Proof.
  apply (format_context_sources fixtures.three_chunks
           ["first"; "second"; "third"]
           [ {[ "source" := "data/documents/a.txt" ]};
             {[ "source" := "C:\docs\b.txt" ]};
             {[ "source" := "a.txt" ]} ]); reflexivity.
Defined.

Lemma source_name_of_joined_path_witness :
  chatbot.source_name ("data/documents" ++ "/" ++ "policy.txt") = "policy.txt" /\
  chatbot.source_name ("data/documents" ++ "\" ++ "policy.txt") = "policy.txt".
Proof.
  apply (source_name_of_joined_path "data/documents" "policy.txt"); reflexivity.
Defined.

Lemma add_documents_count_witness :
  let out := vector_store.add_documents (E := reference.ListEngine)
               [fixtures.policy; fixtures.remote] reference.empty_store in
  vector_store.collection_name out.2 = "company_docs" /\
  vector_store.persist_directory out.2 = "./data/chroma_db" /\
  match out.1 with
  | Ok _ => vector_store.get_count out.2 = 0 + 2
  | Raise e =>
      exists j : nat,
        (100 * j < 2)%nat /\
        vector_store.get_count out.2 = 0 + Z.of_nat (100 * j)
  end.
Proof.
  apply (add_documents_count (E := reference.ListEngine) reference_counts_adds
           [fixtures.policy; fixtures.remote] reference.empty_store).
Defined.

Lemma add_documents_as_one_add_witness :
  vector_store.add_documents (E := reference.ListEngine)
    [fixtures.policy; fixtures.remote] reference.empty_store
  = (Ok tt,
     vector_store.set_collection
       [("doc_0", page_content fixtures.policy, metadata fixtures.policy);
        ("doc_1", page_content fixtures.remote, metadata fixtures.remote)]
       reference.empty_store).
Proof.
  apply (add_documents_as_one_add (E := reference.ListEngine) reference_adds_in_parts
           [fixtures.policy; fixtures.remote] reference.empty_store).
  discriminate.
Defined.

Lemma get_stats_nonempty_witness :
  exists total avg srcs,
    document_processor.get_stats [fixtures.policy; fixtures.remote] !! "total_chunks"
      = Some (document_processor.SInt 2) /\
    document_processor.get_stats [fixtures.policy; fixtures.remote] !! "total_characters"
      = Some (document_processor.SInt total) /\
    document_processor.get_stats [fixtures.policy; fixtures.remote] !! "avg_chunk_size"
      = Some (document_processor.SInt avg) /\
    document_processor.get_stats [fixtures.policy; fixtures.remote] !! "sources"
      = Some (document_processor.SList srcs) /\
    total = foldr Z.add 0
              (map (fun c => Z.of_nat (String.length (page_content c)))
                   [fixtures.policy; fixtures.remote]) /\
    avg * 2 <= total < (avg + 1) * 2 /\
    NoDup srcs /\
    (forall src, src ∈ srcs <->
       exists c, c ∈ [fixtures.policy; fixtures.remote] /\
                 src = default "unknown" (metadata c !! "source")).
Proof.
  apply (get_stats_nonempty [fixtures.policy; fixtures.remote]). discriminate.
Defined.

Lemma load_documents_contents_witness :
  exists docs,
    document_processor.load_documents (FS := disk.SampleFS) "data/documents" = Ok docs /\
    forall d, d ∈ docs <->
      exists f l,
        f ∈ ["remote.txt"; "notes.md"; "policy.txt"; "broken.pdf"; "SCAN.PDF"; "archive"] /\
        loads (FS := disk.SampleFS) "data/documents" f l /\ d ∈ l.
Proof.
  apply (load_documents_contents (FS := disk.SampleFS) "data/documents"
           ["remote.txt"; "notes.md"; "policy.txt"; "broken.pdf"; "SCAN.PDF"; "archive"]);
    reflexivity.
Defined.

Example load_documents_sample :
  document_processor.load_documents (FS := disk.SampleFS) "data/documents"
  = Ok [fixtures.policy; fixtures.remote].
Proof. vm_compute. reflexivity. Qed.

Lemma load_documents_listing_order_witness :
  document_processor.load_documents
    (FS := relisted disk.SampleFS
             (fun _ => Ok ["archive"; "SCAN.PDF"; "broken.pdf"; "policy.txt";
                           "notes.md"; "remote.txt"]))
    "data/documents"
  = document_processor.load_documents (FS := disk.SampleFS) "data/documents".
Proof.
  apply (load_documents_listing_order disk.SampleFS "data/documents"
           ["remote.txt"; "notes.md"; "policy.txt"; "broken.pdf"; "SCAN.PDF"; "archive"]
           ["archive"; "SCAN.PDF"; "broken.pdf"; "policy.txt"; "notes.md"; "remote.txt"]).
  - reflexivity.
  - symmetry.
    exact (reverse_Permutation
             ["remote.txt"; "notes.md"; "policy.txt"; "broken.pdf"; "SCAN.PDF"; "archive"]).
Defined.

Lemma clear_outcome_witness :
  let out := vector_store.clear (C := disk.ListClient) fixtures.indexed_store in
  vector_store.collection_name out.2 = "company_docs" /\
  vector_store.persist_directory out.2 = "./data/chroma_db" /\
  match out.1 with
  | Ok _ => vector_store.get_count out.2 = 0
  | Raise _ => out.2 = fixtures.indexed_store
  end.
Proof.
  apply (clear_outcome (C := disk.ListClient) disk_creates_empty fixtures.indexed_store).
Defined.

Lemma rebuilt_index_count_witness :
  vector_store.get_count
    (vector_store.add_documents (E := reference.ListEngine) [fixtures.remote]
       reference.empty_store).2
  = 1.
Proof.
  apply (rebuilt_index_count (C := disk.ListClient) disk_creates_empty
           reference_counts_adds [fixtures.remote]
           fixtures.indexed_store reference.empty_store); reflexivity.
Defined.

Lemma index_documents_keeps_documents_witness :
  2 <= vector_store.get_count
         (index_documents.store
            (index_documents.index_documents
               (C := disk.ListClient) (FS := disk.SampleFS) (TS := disk.WholeDocuments)
               "data/documents" false (disk.run fixtures.indexed_store ["n"])).2).
Proof.
  apply (index_documents_keeps_documents
           (C := disk.ListClient) (FS := disk.SampleFS) (TS := disk.WholeDocuments)
           reference_counts_adds "data/documents"
           (disk.run fixtures.indexed_store ["n"])).
  intros line rest [= <- <-]. split; discriminate.
Defined.

Lemma index_documents_forced_on_missing_directory_witness :
  index_documents.index_documents
    (C := disk.ListClient) (FS := disk.SampleFS) (TS := disk.WholeDocuments)
    "data/missing" true (disk.run fixtures.indexed_store [])
  = (Ok false, disk.run reference.empty_store []) /\
  vector_store.get_count reference.empty_store = 0.
Proof.
  apply (index_documents_forced_on_missing_directory
           (C := disk.ListClient) (FS := disk.SampleFS) (TS := disk.WholeDocuments)
           disk_creates_empty "data/missing"
           (disk.run fixtures.indexed_store []) reference.empty_store);
    reflexivity.
Defined.

Lemma index_documents_success_witness :
  exists docs before,
    document_processor.load_documents (FS := disk.SampleFS) "data/documents" = Ok docs /\
    docs <> [] /\
    script_chunks (TS := disk.WholeDocuments) docs <> [] /\
    (before = fixtures.indexed_store \/
     vector_store.clear (C := disk.ListClient) fixtures.indexed_store = (Ok tt, before)) /\
    vector_store.add_documents (script_chunks (TS := disk.WholeDocuments) docs) before
    = (Ok tt, fixtures.indexed_store).
Proof.
  apply (index_documents_success
           (C := disk.ListClient) (FS := disk.SampleFS) (TS := disk.WholeDocuments)
           "data/documents" true
           (disk.run fixtures.indexed_store [])
           (disk.run fixtures.indexed_store [])).
  vm_compute. reflexivity.
Defined.

Lemma handle_prompt_messages_witness :
  let out := chatbot.chat (P := fixtures.failing) "How many vacation days do I get?"
               (fixtures.world fixtures.failing fixtures.indexed_store) in
  exists reply,
    app.handle_prompt (P := fixtures.failing)
      (Some "How many vacation days do I get?") None
      (disk.session fixtures.failing fixtures.indexed_store)
    = (Ok tt,
       app.mkSession out.2
         [app.mkMessage "user" "How many vacation days do I get?" None; reply]) /\
    app.role reply = "assistant" /\
    match out.1 with
    | Ok response =>
        app.content reply = chatbot.answer response /\
        app.msg_sources reply = Some (chatbot.sources response)
    | Raise e =>
        app.content reply = app.error_prefix ++ exn_str e /\
        app.msg_sources reply = Some []
    end.
Proof.
  apply (handle_prompt_messages (P := fixtures.failing)
           (disk.session fixtures.failing fixtures.indexed_store)
           (Some "How many vacation days do I get?") None
           "H"%char "ow many vacation days do I get?").
  reflexivity.
Defined.

Example splitext_samples :
  map document_processor.splitext_ext
      ["policy.txt"; "report.v2.pdf"; "SCAN.PDF"; ".txt"; "..pdf"; "notes"; "draft."]
  = [".txt"; ".pdf"; ".PDF"; ""; ""; ""; "."].
Proof. reflexivity. Qed.

Example lower_samples :
  map index_documents.lower ["Y"; "YES"; " y"; "n"] = ["y"; "yes"; " y"; "n"].
Proof. reflexivity. Qed.
